(** * ssh2incus: session dispatch, command builder, banner and host identity helpers

    A shallow embedding of the Go sources
      - [server/banner.go]         (both listings of [bannerHandler]),
      - the [server] shell handler (constants, [setupEnvironmentVariables],
        [buildCommandString], [shellHandler], [incusShell]),
      - the [user] package helpers [idGroupList] and [idGroupNameList],
    followed by the properties the specification states about them.

    Go strings are byte sequences and are modelled by [string]; Go [int]
    values by [Z]; the environment [map[string]string] by [gmap string string].
    Calls into collaborators whose code is outside the listing (the container
    API client, the SSH session, the OS) are answered by an explicit record of
    oracles, and every such call is recorded in a trace of events. *)

From Stdlib Require Import ZArith List Lia Ascii String.
From stdpp Require Import gmap strings list fin_maps.

Open Scope string_scope.
Open Scope Z_scope.

(** ** Go's [strings] package, restricted to one-byte separators

    Every separator and needle in the listing is a one-byte literal
    ("=", ":", "$"); Go's [strings.Index] dispatches such calls to
    [IndexByteString], which is what is modelled here. *)
Module strings.

(** [s[:n]] *)
Fixpoint slice_to (n : nat) (s : string) : string :=
  match n, s with
  | S n', String a s' => String a (slice_to n' s')
  | _, _ => ""
  end.

(** [s[n:]] *)
Fixpoint slice_from (n : nat) (s : string) : string :=
  match n, s with
  | S n', String _ s' => slice_from n' s'
  | _, _ => s
  end.

(** [strings.IndexByte]: index of the first [c] in [s]; [None] is Go's -1. *)
Fixpoint IndexByte (s : string) (c : ascii) : option nat :=
  match s with
  | "" => None
  | String a s' => if Ascii.eqb a c then Some 0%nat else S <$> IndexByte s' c
  end.

(** [strings.Contains(s, substr)] is [Index(s, substr) >= 0]. *)
Definition Contains (s : string) (c : ascii) : bool :=
  match IndexByte s c with Some _ => true | None => false end.

(** [strings.Count] for a one-byte separator. *)
Fixpoint Count (s : string) (c : ascii) : nat :=
  match s with
  | "" => 0%nat
  | String a s' => ((if Ascii.eqb a c then 1 else 0) + Count s' c)%nat
  end.

(** The loop of [genSplit]: at most [k] cuts, the rest of [s] is the last
    piece. *)
Fixpoint splitLoop (k : nat) (s : string) (c : ascii) : list string :=
  match k with
  | O => [s]
  | S k' =>
      match IndexByte s c with
      | None => [s]
      | Some m => slice_to m s :: splitLoop k' (slice_from (m + 1) s) c
      end
  end.

(** [genSplit(s, sep, 0, n)] for a one-byte [sep]. *)
Definition genSplit (s : string) (c : ascii) (n : Z) : list string :=
  if n =? 0 then []
  else
    let n1 := if n <? 0 then Z.of_nat (Count s c) + 1 else n in
    let n2 := if Z.of_nat (String.length s) + 1 <? n1
              then Z.of_nat (String.length s) + 1 else n1 in
    splitLoop (Z.to_nat (n2 - 1)) s c.

Definition SplitN (s : string) (c : ascii) (n : Z) : list string := genSplit s c n.
Definition Split (s : string) (c : ascii) : list string := genSplit s c (-1).

End strings.

(** ** Go's [fmt.Sprintf] for string arguments

    The listing formats strings with [%s] only.  [%s] and [%v] print the
    argument, [%%] prints a percent sign, any other verb prints Go's bad-verb
    marker [%!c(string=arg)], and a verb without an argument prints
    [%!c(MISSING)].  Flags and widths do not occur and are not interpreted. *)
Module fmt.

Definition missing (v : ascii) : string := "%!" +:+ String v "(MISSING)".
Definition badVerb (v : ascii) (a : string) : string :=
  "%!" +:+ String v ("(string=" +:+ a +:+ ")").

Definition verb (v : ascii) (a : string) : string :=
  if Ascii.eqb v "s" || Ascii.eqb v "v" then a else badVerb v a.

Fixpoint Sprintf (format : string) (args : list string) : string :=
  match format with
  | "" => ""
  | String "%" (String "%" rest) => String "%" (Sprintf rest args)
  | String "%" (String v rest) =>
      match args with
      | a :: args' => verb v a +:+ Sprintf rest args'
      | [] => missing v +:+ Sprintf rest []
      end
  | String a rest => String a (Sprintf rest args)
  end.

End fmt.

(** The double-quote character, which the Go raw-string formats contain. *)
Definition dq : string := String "034"%char "".

(** ** Data model *)

(** [LoginUser]: the parsed login name carried by the SSH context. *)
Module LoginUser.
Record t : Type := mk {
  User : string;
  InstanceUser : string;
  Instance : string;
  Project : string;
  Remote : string;
}.
End LoginUser.

(** [incus.InstanceUser] *)
Module InstanceUser.
Record t : Type := mk {
  User : string;
  Uid : Z;
  Gid : Z;
  Dir : string;
  Shell : string;
}.
End InstanceUser.

(** [ssh.Window] / [incus.Window] *)
Module Window.
Record t : Type := mk { Width : Z; Height : Z }.
End Window.

(** [ssh.Pty] *)
Module Pty.
Record t : Type := mk { Term : string; Window : Window.t }.
End Pty.

(** [incus.ProxyDevice] *)
Module ProxyDevice.
Record t : Type := mk {
  Project : string;
  Instance : string;
  Source : string;
  Uid : Z;
  Gid : Z;
  Mode : string;
}.
End ProxyDevice.

(** [incus.InstanceExec]; the stream fields ([WinCh], [Stdin], [Stdout],
    [Stderr]) are channels and pipes of the running session and carry no data
    at the time the request is built, so they are not part of the record. *)
Module InstanceExec.
Record t : Type := mk {
  Instance : string;
  Cmd : string;
  Env : gmap string string;
  IsPty : bool;
  Window : Window.t;
  User : Z;
  Group : Z;
  Cwd : string;
}.
End InstanceExec.

(** What the handlers read from an [ssh.Session]. *)
Module Session.
Record t : Type := mk {
  (** [s.Context().Value("LoginUser").(LoginUser)]: [None] when the type
      assertion fails. *)
  ctxLoginUser : option LoginUser.t;
  Environ : list string;
  RawCommand : string;
  (** [s.Pty()]: the request and the [isPty] flag. *)
  PtyReq : Pty.t;
  IsPty : bool;
  (** [ssh.AgentRequested(s)] *)
  AgentRequested : bool;
  (** [s.RemoteAddr().String()] *)
  RemoteAddr : string;
}.
End Session.

(** The fields of the package-level [config] the listing reads. *)
Module Config.
Record t : Type := mk { Shell : string; IncusSocket : string }.
End Config.

(** Modelled from the spec: the constants [ShellSu] and [ShellLogin] are
    declared outside the listing; the specification names the modes
    [su], [login] and [shell]. *)
Definition ShellSu : string := "su".
Definition ShellLogin : string := "login".

(** Exit codes *)
Definition ExitCodeNotImplemented : Z := -1.
Definition ExitCodeInvalidLogin : Z := 1.
Definition ExitCodeInvalidProject : Z := 2.
Definition ExitCodeMetaError : Z := 3.
Definition ExitCodeArchitectureError : Z := 4.
Definition ExitCodeInternalError : Z := 20.
Definition ExitCodeConnectionError : Z := 255.

(** ** [setupEnvironmentVariables] *)

(** One iteration of the loop over [s.Environ()]. *)
Definition envStep (env : gmap string string) (v : string) : gmap string string :=
  match strings.SplitN v "=" 2 with
  | [k; x] => <[k := x]> env
  | _ => env
  end.

Definition setupEnvironmentVariables
    (s : Session.t) (iu : InstanceUser.t) (ptyReq : Pty.t) : gmap string string :=
  let env := foldl envStep ∅ (Session.Environ s) in
  let env :=
    if negb (String.eqb (Pty.Term ptyReq) "")
    then <["TERM" := Pty.Term ptyReq]> env
    else <["TERM" := "xterm-256color"]> env in
  let env := <["USER" := InstanceUser.User iu]> env in
  let env := <["HOME" := InstanceUser.Dir iu]> env in
  let env := <["SHELL" := InstanceUser.Shell iu]> env in
  env.

(** ** [buildCommandString]

    The result is [None] when the Go code would panic (indexing [[0]] into an
    empty slice); [buildCommandString_total] shows this never happens. *)
Definition buildCommandString
    (config : Config.t) (s : Session.t) (iu : InstanceUser.t) (remoteAddr : string)
    : option (string * bool) :=
  if String.eqb (Session.RawCommand s) "" then
    if String.eqb (Config.Shell config) ShellSu then
      Some (fmt.Sprintf ("su - " +:+ dq +:+ "%s" +:+ dq) [InstanceUser.User iu], false)
    else if String.eqb (Config.Shell config) ShellLogin then
      host ← strings.Split remoteAddr ":" !! 0%nat;
      Some (fmt.Sprintf ("login -h " +:+ dq +:+ "%s" +:+ dq +:+ " -f " +:+ dq +:+ "%s" +:+ dq)
              [host; InstanceUser.User iu], false)
    else
      Some (fmt.Sprintf "%s -l" [InstanceUser.Shell iu], true)
  else
    let cmd := Session.RawCommand s in
    if strings.Contains cmd "$"
    then Some (fmt.Sprintf ("%s -c " +:+ dq +:+ "%s" +:+ dq) [InstanceUser.Shell iu; cmd], true)
    else Some (cmd, true).

(** ** Collaborators and the event trace *)

(** Go [error] values returned by collaborators: only their message matters
    to the handlers, which test them against [nil]. *)
Definition error : Type := string.

(** [*exec.Cmd] as built by [exec.Command] and completed by the handler. *)
Module Cmd.
Record t : Type := mk { Args : list string; Env : list string }.
End Cmd.

(** The three outcomes [cmd.Wait()] distinguishes: [nil], an
    [*exec.ExitError] with its [ExitCode()], any other error. *)
Inductive WaitResult : Type :=
| WaitNil
| WaitExitError (code : Z)
| WaitOtherError (e : error).

Inductive Level : Type := LvlDebug | LvlError.

(** Everything a handler does to the outside, in program order.  Log events
    carry the format string of the call, not the formatted arguments. *)
Inductive Event : Type :=
| EvLog (l : Level) (format : string)
| EvWriteString (msg : string)
| EvExit (code : Z)
| EvNewIncusServer
| EvConnect
| EvDisconnect
| EvUseProject (project : string)
| EvGetInstanceUser (project instance user : string)
| EvNewAgentListener
| EvListenerClose
| EvGoForwardAgentConnections
| EvAddSocket (d : ProxyDevice.t)
| EvRemoveSocket (d : ProxyDevice.t)
| EvSetupShellPipes
| EvGoWindowForward
| EvCloseWindowChannel
| EvExec (ie : InstanceExec.t)
| EvShlexSplit (s : string) (posix : bool)
| EvPtyStart (cmd : Cmd.t)
| EvPtyClose
| EvCancel
| EvGoResize
| EvGoCopyStdin
| EvCopyOutput
| EvCmdWait.

(** The answers of the collaborators.  [None] is a [nil] error; [inl] carries
    an error, [inr] a result. *)
Module World.
Record t : Type := mk {
  config : Config.t;
  (** [LoginUser.IsValid] and [LoginUser.IsDefaultProject], declared
      outside the listing. *)
  IsValid : LoginUser.t → bool;
  IsDefaultProject : LoginUser.t → bool;
  NewIncusServer : option error;
  Connect : option error;
  UseProject : string → option error;
  GetInstanceUser : string → string → string → option InstanceUser.t;
  (** [ssh.NewAgentListener()]: the listener's address on success. *)
  NewAgentListener : error + string;
  AddSocket : ProxyDevice.t → error + string;
  Exec : InstanceExec.t → Z * option error;
  (** [shlex.Split], declared outside the listing. *)
  shlexSplit : string → bool → error + list string;
  ptyStart : Cmd.t → option error;
  (** the error of [io.Copy(bufOut, f)], when it is not [io.EOF] *)
  copyOutput : option error;
  cmdWait : Cmd.t → WaitResult;
}.
End World.

(** ** A monad for handler bodies

    A handler threads the trace written so far and its stack of deferred
    calls.  A statement either falls through with a value, executes [return],
    or panics. *)
Inductive Flow (A : Type) : Type :=
| Next (a : A)
| Return
| Panic.
Arguments Next {A} a.
Arguments Return {A}.
Arguments Panic {A}.

Record HState : Type := mkHState {
  trace : list Event;
  deferred : list Event;   (* most recently deferred first *)
}.

Definition M (A : Type) : Type := HState → Flow A * HState.

#[global] Instance M_ret : MRet M := λ A a st, (Next a, st).
#[global] Instance M_bind : MBind M := λ A B f m st,
  match m st with
  | (Next a, st') => f a st'
  | (Return, st') => (Return, st')
  | (Panic, st') => (Panic, st')
  end.

Definition emit (e : Event) : M unit :=
  λ st, (Next tt, mkHState (trace st ++ [e]) (deferred st)).

(** [defer e] *)
Definition defer (e : Event) : M unit :=
  λ st, (Next tt, mkHState (trace st) (e :: deferred st)).

(** [return] *)
Definition return_ {A} : M A := λ st, (Return, st).

Definition panic {A} : M A := λ st, (Panic, st).

Definition liftOpt {A} (o : option A) : M A :=
  match o with Some a => mret a | None => panic end.

(** A call of a function without results: the callee gets a fresh stack of
    deferred calls, which run when it returns or panics; a panic propagates
    to the caller. *)
Definition call (body : M unit) : M unit :=
  λ st,
    let '(f, st') := body (mkHState (trace st) []) in
    let st'' := mkHState (trace st' ++ deferred st') (deferred st) in
    match f with
    | Panic => (Panic, st'')
    | _ => (Next tt, st'')
    end.

(** How a handler invocation ended. *)
Inductive Outcome : Type := Returned | Panicked.

(** Run a handler from the empty trace: its trace, deferred calls included. *)
Definition run (body : M unit) : list Event * Outcome :=
  match call body (mkHState [] []) with
  | (Panic, st) => (trace st, Panicked)
  | (_, st) => (trace st, Returned)
  end.

(** The line feed, written [\n] in the Go literals. *)
Definition nl : string := String "010"%char "".

(** ** [incusShell] *)

Definition cmdString : string :=
  "bash -c 'while true; do read -r -p " +:+ dq +:+ "
Type incus command:
> incus " +:+ dq +:+ " a; incus $a; done'".

Definition welcome : string := "
incus shell emulator. Use Ctrl+c to exit

Hit Enter or type 'help' for help
".

Definition incusShell (w : World.t) (s : Session.t) : M unit :=
  emit (EvShlexSplit cmdString true);;
  match World.shlexSplit w cmdString true with
  | inl _ =>
      emit (EvLog LvlError "command parsing failed: %w");;
      emit (EvWriteString ("Internal error: command parsing failed" +:+ nl));;
      emit (EvExit ExitCodeConnectionError);;
      return_
  | inr args =>
      (* exec.Command(args[0], args[1:]...) *)
      cmd ← match args with
            | [] => panic
            | a0 :: rest => mret (Cmd.mk (a0 :: rest) [])
            end;
      let ptyReq := Session.PtyReq s in
      if negb (Session.IsPty s) then
        emit (EvWriteString ("No PTY requested." +:+ nl));;
        emit (EvExit ExitCodeConnectionError);;
        return_
      else
        let cmd := Cmd.mk (Cmd.Args cmd)
                     (Cmd.Env cmd ++
                        [fmt.Sprintf "TERM=%s" [Pty.Term ptyReq];
                         "PATH=/bin:/usr/bin:/snap/bin:/usr/local/bin";
                         fmt.Sprintf "INCUS_SOCKET=%s" [Config.IncusSocket (World.config w)]]) in
        emit (EvPtyStart cmd);;
        match World.ptyStart w cmd with
        | Some _ =>
            emit (EvLog LvlError "pty start failed: %w");;
            emit (EvWriteString ("Couldn't allocate PTY" +:+ nl));;
            emit (EvExit ExitCodeConnectionError);;
            return_
        | None =>
            defer EvPtyClose;;
            emit (EvWriteString welcome);;
            defer EvCancel;;
            emit EvGoResize;;
            emit EvGoCopyStdin;;
            emit EvCopyOutput;;
            match World.copyOutput w with
            | Some _ => emit (EvLog LvlDebug "stdout copy error: %w")
            | None => mret tt
            end;;
            emit EvCmdWait;;
            match World.cmdWait w cmd with
            | WaitNil => mret tt
            | WaitExitError code => emit (EvExit code)
            | WaitOtherError _ =>
                emit (EvLog LvlError "command wait error: %w");;
                emit (EvExit ExitCodeConnectionError)
            end
        end
  end.

(** ** [shellHandler] *)

(** The agent-forwarding block: returns the environment map, which it
    updates in place when the socket is added. *)
Definition setupAgent (w : World.t) (lu : LoginUser.t) (iu : InstanceUser.t)
    (env : gmap string string) : M (gmap string string) :=
  emit EvNewAgentListener;;
  match World.NewAgentListener w with
  | inl _ =>
      emit (EvLog LvlError "Failed to create agent listener: %w");;
      return_
  | inr addr =>
      defer EvListenerClose;;
      emit EvGoForwardAgentConnections;;
      let d := ProxyDevice.mk (LoginUser.Project lu) (LoginUser.Instance lu) addr
                 (InstanceUser.Uid iu) (InstanceUser.Gid iu) "0660" in
      emit (EvAddSocket d);;
      match World.AddSocket w d with
      | inr socket =>
          defer (EvRemoveSocket d);;
          mret (<["SSH_AUTH_SOCK" := socket]> env)
      | inl _ =>
          emit (EvLog LvlError "Failed to add socket: %w");;
          mret env
      end
  end.

Definition shellHandler (w : World.t) (s : Session.t) : M unit :=
  match Session.ctxLoginUser s with
  | None =>
      emit (EvLog LvlError "invalid connection data for %#v");;
      emit (EvWriteString "invalid connection data");;
      emit (EvExit ExitCodeInvalidLogin);;
      return_
  | Some lu =>
      if negb (World.IsValid w lu) then
        emit (EvLog LvlError "invalid connection data for %#v");;
        emit (EvWriteString "invalid connection data");;
        emit (EvExit ExitCodeInvalidLogin);;
        return_
      else
      emit (EvLog LvlDebug "shell: connecting %#v");;
      if String.eqb (LoginUser.User lu) "root" && String.eqb (LoginUser.Instance lu) "%shell"
      then call (incusShell w s);; return_
      else
      emit EvNewIncusServer;;
      match World.NewIncusServer w with
      | Some _ =>
          emit (EvLog LvlError "failed to initialize incus client: %w");;
          emit (EvExit ExitCodeConnectionError);;
          return_
      | None =>
      emit EvConnect;;
      match World.Connect w with
      | Some _ =>
          emit (EvLog LvlError "failed to connect to incus: %w");;
          emit (EvExit ExitCodeConnectionError);;
          return_
      | None =>
      defer EvDisconnect;;
      (* Project handling *)
      (if negb (World.IsDefaultProject w lu) then
         emit (EvUseProject (LoginUser.Project lu));;
         match World.UseProject w (LoginUser.Project lu) with
         | Some _ =>
             emit (EvLog LvlError "using project %s error: %w");;
             emit (EvWriteString
                     (fmt.Sprintf ("unknown project %s" +:+ nl) [LoginUser.Project lu]));;
             emit (EvExit ExitCodeInvalidProject);;
             return_
         | None => mret tt
         end
       else mret tt);;
      (* User handling *)
      iu ← (if negb (String.eqb (LoginUser.InstanceUser lu) "") then
              emit (EvGetInstanceUser (LoginUser.Project lu) (LoginUser.Instance lu)
                      (LoginUser.InstanceUser lu));;
              mret (World.GetInstanceUser w (LoginUser.Project lu) (LoginUser.Instance lu)
                      (LoginUser.InstanceUser lu))
            else mret None);
      match iu with
      | None =>
          emit (EvWriteString ("not found user or instance" +:+ nl));;
          emit (EvLog LvlError "shell: not found instance user for %#v");;
          emit (EvExit ExitCodeInvalidLogin);;
          return_
      | Some iu =>
      (* Get PTY information *)
      let ptyReq := Session.PtyReq s in
      let isPty := Session.IsPty s in
      (* Setup environment *)
      let env := setupEnvironmentVariables s iu ptyReq in
      (* Setup SSH agent if requested *)
      env ← (if Session.AgentRequested s then setupAgent w lu iu env else mret env);
      (* Build command string *)
      '(cmd, shouldRunAsUser) ←
        liftOpt (buildCommandString (World.config w) s iu (Session.RemoteAddr s));
      emit (EvLog LvlDebug "shell cmd: %v");;
      emit (EvLog LvlDebug "shell pty: %v");;
      emit (EvLog LvlDebug "shell env: %v");;
      (* Setup I/O pipes *)
      emit EvSetupShellPipes;;
      (* Setup window size channel *)
      defer EvCloseWindowChannel;;
      emit EvGoWindowForward;;
      let '(uid, gid) :=
        if shouldRunAsUser : bool
        then (InstanceUser.Uid iu, InstanceUser.Gid iu) else (0, 0) in
      let ie := InstanceExec.mk (LoginUser.Instance lu) cmd env isPty (Pty.Window ptyReq)
                  uid gid (InstanceUser.Dir iu) in
      emit (EvExec ie);;
      let '(ret, err) := World.Exec w ie in
      match err with
      | Some _ => emit (EvLog LvlDebug "shell: connection failed: %w")
      | None => mret tt
      end;;
      emit (EvExit ret)
      end
      end
      end
  end.

(** ** [bannerHandler]

    [banner.go] is listed twice.  The first listing keeps the banner in a
    package-level variable and appends to it; the second declares it as a
    constant and builds the result in a local.  Both are embedded, each in
    its own module. *)

(** What the banner code reads from an [ssh.Context]. *)
Module Context.
Record t : Type := mk {
  User : string;
  LoginUser : option LoginUser.t;
}.
End Context.

(** The functions and OS facts [bannerHandler] consults and the listing does
    not define. *)
Module BannerEnv.
Record t : Type := mk {
  parseLoginUser : string → LoginUser.t;
  LoginUserFromContext : Context.t → LoginUser.t;
  IsValid : LoginUser.t → bool;
  IsCommand : LoginUser.t → bool;
  (** [os.Hostname()], the empty string when it fails *)
  Hostname : string;
}.
End BannerEnv.

(** The text both listings initialise [banner] with. *)
Definition bannerArt : string := "
┌──────────────────────────────────────────────┐
│          _     ____  _                       │
│  ___ ___| |__ |___ \(_)_ __   ___ _   _ ___  │
│ / __/ __| '_ \  __) | | '_ \ / __| | | / __| │
│ \__ \__ \ | | |/ __/| | | | | (__| |_| \__ \ │
│ |___/___/_| |_|_____|_|_| |_|\___|\__,_|___/ │
└──────────────────────────────────────────────┘
".

(** The format of the identity line and the rule under it. *)
Definition bannerLineFormat : string :=
  "👤 %s 📦 %s.%s%s" +:+ nl +:+ "────────────────────────────────────────────────" +:+ nl.

(** First listing: [var banner].  The package variable is threaded through
    the handler: it takes the current value and returns the new one. *)
Module BannerVar.

Definition banner : string := bannerArt.

Definition bannerHandler (e : BannerEnv.t) (ctx : Context.t) (banner : string)
    : string * string :=
  let lu := BannerEnv.parseLoginUser e (Context.User ctx) in
  if negb (BannerEnv.IsValid e lu) then ("", banner)
  else
    let hostname := BannerEnv.Hostname e in
    let hostname :=
      if negb (String.eqb hostname "") then fmt.Sprintf " 💻 %s" [hostname] else hostname in
    let banner :=
      banner +:+ fmt.Sprintf bannerLineFormat
                   [LoginUser.InstanceUser lu; LoginUser.Instance lu;
                    LoginUser.Project lu; hostname] in
    (banner +:+ nl, banner).

End BannerVar.

(** Second listing: [const banner]. *)
Module BannerConst.

Definition banner : string := bannerArt.

Definition bannerHandler (e : BannerEnv.t) (ctx : Context.t) : string :=
  let lu := BannerEnv.LoginUserFromContext e ctx in
  if negb (BannerEnv.IsValid e lu) then ""
  else if BannerEnv.IsCommand e lu then banner
  else
    let remote := LoginUser.Remote lu in
    let remote := if negb (String.eqb remote "") then remote +:+ " / " else remote in
    let hostname := BannerEnv.Hostname e in
    let hostname :=
      if negb (String.eqb hostname "")
      then fmt.Sprintf " 💻 %s%s" [remote; hostname] else hostname in
    let b :=
      banner +:+ fmt.Sprintf bannerLineFormat
                   [LoginUser.InstanceUser lu; LoginUser.Instance lu;
                    LoginUser.Project lu; hostname] in
    b +:+ nl.

End BannerConst.

(** ** Package [user]: [idGroupList] and [idGroupNameList]

    The output of the [id] utility is modelled as the sequence of runes Go's
    UTF-8 decoding yields from it; [bytes.TrimSpace] and [strings.Fields]
    classify runes with [unicode.IsSpace]. *)
Module user.

Definition rune : Type := N.

(** [unicode.IsSpace] *)
Definition IsSpace (r : rune) : bool :=
  (if r <=? 0xFF then
     (r =? 0x09) || (r =? 0x0A) || (r =? 0x0B) || (r =? 0x0C) || (r =? 0x0D)
     || (r =? 0x20) || (r =? 0x85) || (r =? 0xA0)
   else
     (r =? 0x1680) || ((0x2000 <=? r) && (r <=? 0x200A))
     || (r =? 0x2028) || (r =? 0x2029) || (r =? 0x202F) || (r =? 0x205F)
     || (r =? 0x3000))%N.

Fixpoint TrimLeftFunc (f : rune → bool) (s : list rune) : list rune :=
  match s with
  | [] => []
  | r :: s' => if f r then TrimLeftFunc f s' else s
  end.

Fixpoint TrimRightFunc (f : rune → bool) (s : list rune) : list rune :=
  match s with
  | [] => []
  | r :: s' =>
      match TrimRightFunc f s' with
      | [] => if f r then [] else [r]
      | t => r :: t
      end
  end.

(** [bytes.TrimSpace] *)
Definition TrimSpace (s : list rune) : list rune :=
  TrimRightFunc IsSpace (TrimLeftFunc IsSpace s).

(** The scan of [strings.FieldsFunc]: [start] is the field being read, if
    any. *)
Fixpoint fieldsLoop (f : rune → bool) (start : option (list rune)) (s : list rune)
    : list (list rune) :=
  match s with
  | [] => match start with Some fld => [fld] | None => [] end
  | r :: s' =>
      if f r then
        match start with
        | Some fld => fld :: fieldsLoop f None s'
        | None => fieldsLoop f None s'
        end
      else
        match start with
        | Some fld => fieldsLoop f (Some (fld ++ [r])%list) s'
        | None => fieldsLoop f (Some [r]) s'
        end
  end.

(** [strings.Fields] *)
Definition Fields (s : list rune) : list (list rune) := fieldsLoop IsSpace None s.

(** [User]: the field the helpers read. *)
Record User : Type := mkUser { Username : string }.

Section helpers.

(** Go's [error] interface and the package's [errNotFound] value, which
    is declared outside the listing. *)
Variable error : Type.
Variable errNotFound : error.

(** The package variable [idExe], set once by [init]. *)
Variable idExe : string.

(** [command(name, args...)], declared outside the listing: the output
    and the error, [None] for [nil]. *)
Variable command : string → list string → list rune * option error.

Definition idGroupList (u : User) : error + list (list rune) :=
  let '(data, err) := command idExe ["-G"; Username u] in
  match err with
  | Some err => inl err
  | None =>
      let data := TrimSpace data in
      if (0 <? length data)%nat then inr (Fields data)
      else inl errNotFound
  end.

Definition idGroupNameList (u : User) : error + list (list rune) :=
  let '(data, err) := command idExe ["-Gn"; Username u] in
  match err with
  | Some err => inl err
  | None =>
      let data := TrimSpace data in
      if (0 <? length data)%nat then inr (Fields data)
      else inl errNotFound
  end.

End helpers.

End user.

(** ** Characters of a string *)

(** [has c s]: the byte [c] occurs in [s]. *)
Definition has (c : ascii) (s : string) : Prop := In c (list_ascii_of_string s).

(** [v] is an entry [k=x]: the key is what precedes the first [=]. *)
Definition is_entry (v k x : string) : Prop :=
  v = k +:+ "=" +:+ x ∧ ¬ has "=" k.

(** The host part of a remote address: what precedes its first colon, the
    whole address when it has none. *)
Definition is_host (addr host : string) : Prop :=
  ¬ has ":" host ∧ (addr = host ∨ ∃ rest, addr = host +:+ ":" +:+ rest).

(** The names [setupEnvironmentVariables] assigns itself. *)
Definition reservedNames : list string := ["TERM"; "USER"; "HOME"; "SHELL"].

(** The environment map holds every [KEY=VALUE] entry of the session's
    environment request (the names the handler assigns itself apart). *)
Definition contains_every_entry (s : Session.t) (env : gmap string string) : Prop :=
  ∀ v k x, In v (Session.Environ s) → is_entry v k x → k ∉ reservedNames →
    env !! k = Some x.

(** ** Vocabulary for the dispatcher's claims *)

(** The trace of one invocation of [shellHandler]. *)
Definition handlerTrace (w : World.t) (s : Session.t) : list Event :=
  (run (shellHandler w s)).1.

(** The dispatcher has come as far as project selection: the descriptor is
    valid, it is not the self-service form, and the container API client is
    initialised and connected. *)
Definition connected (w : World.t) (lu : LoginUser.t) : Prop :=
  World.IsValid w lu = true
  ∧ ¬ (LoginUser.User lu = "root" ∧ LoginUser.Instance lu = "%shell")
  ∧ World.NewIncusServer w = None
  ∧ World.Connect w = None.

(** Project selection lets the session through. *)
Definition project_ok (w : World.t) (lu : LoginUser.t) : Prop :=
  World.IsDefaultProject w lu = true ∨ World.UseProject w (LoginUser.Project lu) = None.

(** The lookup of the in-container user is made and answers [iu]. *)
Definition resolved (w : World.t) (lu : LoginUser.t) (iu : InstanceUser.t) : Prop :=
  LoginUser.InstanceUser lu ≠ ""
  ∧ World.GetInstanceUser w (LoginUser.Project lu) (LoginUser.Instance lu)
      (LoginUser.InstanceUser lu) = Some iu.

(** The handler hands the session to [incusShell]: after its debug line it
    does what [incusShell] does, and nothing else. *)
Definition delegates_to_incusShell (w : World.t) (s : Session.t) : Prop :=
  run (shellHandler w s)
  = run (emit (EvLog LvlDebug "shell: connecting %#v");; call (incusShell w s)).

(** The handler goes on to the container API, as for any instance. *)
Definition starts_instance_lookup (w : World.t) (s : Session.t) : Prop :=
  handlerTrace w s !! 1%nat = Some EvNewIncusServer.

Definition is_RemoveSocket (e : Event) : bool :=
  match e with EvRemoveSocket _ => true | _ => false end.

(** The exit codes a trace passes to [s.Exit], in order. *)
Definition exitCodes (t : list Event) : list Z :=
  omap (λ e, match e with EvExit c => Some c | _ => None end) t.

(** The exec requests of a trace, in order. *)
Definition execRequests (t : list Event) : list InstanceExec.t :=
  omap (λ e, match e with EvExec ie => Some ie | _ => None end) t.

(** The session goes on without agent forwarding: the exec runs and its
    environment has no [SSH_AUTH_SOCK]. *)
Definition continues_without_agent (w : World.t) (s : Session.t) : Prop :=
  ∃ ie, In (EvExec ie) (handlerTrace w s)
        ∧ InstanceExec.Env ie !! "SSH_AUTH_SOCK" = None.

(** The SSH layer is handed the exit code [c] by [incusShell]. *)
Definition incusShell_exits_with (w : World.t) (s : Session.t) (c : Z) : Prop :=
  In (EvExit c) (run (incusShell w s)).1.


(** The events up to user resolution, for a session that passes project
    selection. *)
Definition lookupPrefix (w : World.t) (lu : LoginUser.t) : list Event :=
  ([EvLog LvlDebug "shell: connecting %#v"; EvNewIncusServer; EvConnect]
   ++ (if World.IsDefaultProject w lu then []
       else [EvUseProject (LoginUser.Project lu)])
   ++ (if String.eqb (LoginUser.InstanceUser lu) "" then []
       else [EvGetInstanceUser (LoginUser.Project lu) (LoginUser.Instance lu)
               (LoginUser.InstanceUser lu)]))%list.

(** What the specification says of a helper that ran [id] and got the
    output [data] and the error [err]: the command's own error is passed on;
    otherwise the result is [errNotFound] exactly when the output is empty
    after trimming white space, and the white-space-separated fields of the
    output if it is not. *)
Definition id_helper_spec {error : Type} (errNotFound : error)
    (out : list user.rune * option error) (result : error + list (list user.rune))
    : Prop :=
  (∀ e, out.2 = Some e → result = inl e)
  ∧ (out.2 = None →
       (result = inl errNotFound ↔ user.TrimSpace out.1 = [])
       ∧ (user.TrimSpace out.1 ≠ [] → result = inr (user.Fields out.1))).

(** ** Sample sessions and collaborators *)

Definition alice : InstanceUser.t :=
  InstanceUser.mk "alice" 1000 1000 "/home/alice" "/bin/bash".

Definition pty80 : Pty.t := Pty.mk "" (Window.mk 80 24).

Definition alice_web01 : LoginUser.t := LoginUser.mk "bob" "alice" "web01" "default" "".

(** A session that sends the key [A] twice. *)
Definition session_dup : Session.t :=
  Session.mk (Some alice_web01) ["A=1"; "A=2"] "" pty80 true false "10.0.0.1:2222".

(** A raw command with a variable. *)
Definition session_echo : Session.t :=
  Session.mk (Some alice_web01) ["LANG=C"] "echo $USER" pty80 false false "10.0.0.1:2222".

(** A session that asks for agent forwarding. *)
Definition session_agent : Session.t :=
  Session.mk (Some alice_web01) ["LANG=C"] "" pty80 true true "10.0.0.1:2222".

(** The same, from a client that sends its own [SSH_AUTH_SOCK]. *)
Definition session_agent_env : Session.t :=
  Session.mk (Some alice_web01) ["SSH_AUTH_SOCK=/tmp/client.sock"] "" pty80 true true
    "10.0.0.1:2222".

(** The self-service login, with and without a PTY. *)
Definition root_shell : LoginUser.t := LoginUser.mk "root" "" "%shell" "default" "".
Definition session_shell_pty : Session.t :=
  Session.mk (Some root_shell) [] "" (Pty.mk "xterm" (Window.mk 80 24)) true false
    "10.0.0.1:2222".

(** A login into a project that does not exist. *)
Definition bob_ghost : LoginUser.t := LoginUser.mk "bob" "bob" "api" "ghost" "".
Definition session_ghost : Session.t :=
  Session.mk (Some bob_ghost) [] "" pty80 true false "10.0.0.1:2222".

(** A login without an in-container user. *)
Definition nobody_web01 : LoginUser.t := LoginUser.mk "bob" "" "web01" "default" "".
Definition session_nobody : Session.t :=
  Session.mk (Some nobody_web01) [] "" pty80 true false "10.0.0.1:2222".

(** A [%shell] instance asked for by a host user other than root. *)
Definition bob_shell : LoginUser.t := LoginUser.mk "bob" "alice" "%shell" "default" "".
Definition session_bob_shell : Session.t :=
  Session.mk (Some bob_shell) [] "" pty80 true false "10.0.0.1:2222".

(** Collaborators that all succeed: only [alice] exists, only the project
    [ghost] is unknown, the remote command exits with 7 and the self-service
    child with 3. *)
Definition world_ok : World.t :=
  World.mk (Config.mk "shell" "/run/incus/unix.socket") (λ _, true)
    (λ lu, String.eqb (LoginUser.Project lu) "default") None None
    (λ p, if String.eqb p "ghost" then Some "no such project" else None)
    (λ _ _ u, if String.eqb u "alice" then Some alice else None)
    (inr "/tmp/agent.1") (λ _, inr "/run/agent.sock")
    (λ _, (7, None))
    (λ _ _, inr ["bash"; "-c"; "loop"]) (λ _, None) None (λ _, WaitExitError 3).

(** The agent listener cannot be created. *)
Definition world_no_listener : World.t :=
  World.mk (World.config world_ok) (World.IsValid world_ok)
    (World.IsDefaultProject world_ok) None None
    (World.UseProject world_ok) (World.GetInstanceUser world_ok)
    (inl "listen: permission denied") (World.AddSocket world_ok)
    (World.Exec world_ok) (World.shlexSplit world_ok) (World.ptyStart world_ok)
    None (World.cmdWait world_ok).

(** The proxy device cannot be added, and the remote command fails. *)
Definition world_no_socket : World.t :=
  World.mk (World.config world_ok) (World.IsValid world_ok)
    (World.IsDefaultProject world_ok) None None
    (World.UseProject world_ok) (World.GetInstanceUser world_ok)
    (inr "/tmp/agent.1") (λ _, inl "device add failed")
    (λ _, (-1, Some "exec failed")) (World.shlexSplit world_ok)
    (World.ptyStart world_ok) None (World.cmdWait world_ok).

(** The self-service child exits with status 0. *)
Definition world_child_ok : World.t :=
  World.mk (World.config world_ok) (World.IsValid world_ok)
    (World.IsDefaultProject world_ok) None None
    (World.UseProject world_ok) (World.GetInstanceUser world_ok)
    (World.NewAgentListener world_ok) (World.AddSocket world_ok)
    (World.Exec world_ok) (World.shlexSplit world_ok) (World.ptyStart world_ok)
    None (λ _, WaitNil).

(** Banner collaborators: every login name parses to [alice] on [web01], on
    the host [host1]; the second environment accepts no login at all. *)
Definition banner_env : BannerEnv.t :=
  BannerEnv.mk (λ _, alice_web01) (λ _, alice_web01) (λ _, true) (λ _, false) "host1".
Definition banner_env_invalid : BannerEnv.t :=
  BannerEnv.mk (λ _, alice_web01) (λ _, alice_web01) (λ _, false) (λ _, false) "host1".
Definition ctx_alice : Context.t := Context.mk "alice+web01" (Some alice_web01).

(** Outputs of the [id] utility, as runes: ["1000 27\n"], and blank. *)
Definition id_output : list user.rune := [49; 48; 48; 48; 32; 50; 55; 10]%N.
Definition id_blank : list user.rune := [32; 10]%N.

(** An [id] that knows [alice], prints nothing for [ghost] and cannot be run
    for anyone else. *)
Definition id_command (name : string) (args : list string)
    : list user.rune * option string :=
  match args with
  | [_; "alice"] => (id_output, None)
  | [_; "ghost"] => (id_blank, None)
  | _ => ([], Some "exit status 1")
  end.

(** ** Vocabulary for properties of whole traces *)

Definition is_Connect (e : Event) : bool :=
  match e with EvConnect => true | _ => false end.
Definition is_Disconnect (e : Event) : bool :=
  match e with EvDisconnect => true | _ => false end.
Definition is_NewAgentListener (e : Event) : bool :=
  match e with EvNewAgentListener => true | _ => false end.
Definition is_ListenerClose (e : Event) : bool :=
  match e with EvListenerClose => true | _ => false end.
Definition is_CloseWindowChannel (e : Event) : bool :=
  match e with EvCloseWindowChannel => true | _ => false end.
Definition is_WriteString (e : Event) : bool :=
  match e with EvWriteString _ => true | _ => false end.

(** How many events of a trace satisfy [p]. *)
Fixpoint count (p : Event → bool) (t : list Event) : nat :=
  match t with
  | [] => 0
  | e :: t' => (if p e then 1 else 0) + count p t'
  end%nat.

(** Calls that need the connection to the container API. *)
Definition is_api (e : Event) : bool :=
  match e with
  | EvUseProject _ | EvGetInstanceUser _ _ _ | EvAddSocket _ | EvRemoveSocket _
  | EvExec _ => true
  | _ => false
  end.

(** Every call that needs the connection lies between a [Connect] and the
    [Disconnect] that follows it; [conn] says whether a connection is open
    when the trace starts. *)
Fixpoint api_bracketed (conn : bool) (t : list Event) : bool :=
  match t with
  | [] => true
  | EvConnect :: t' => negb conn && api_bracketed true t'
  | EvDisconnect :: t' => conn && api_bracketed false t'
  | e :: t' => (if is_api e then conn else true) && api_bracketed conn t'
  end.

(** The devices a trace adds with success, and the devices it removes. *)
Definition addedSockets (w : World.t) (t : list Event) : list ProxyDevice.t :=
  omap (λ e, match e with
             | EvAddSocket d =>
                 match World.AddSocket w d with inr _ => Some d | inl _ => None end
             | _ => None
             end) t.
Definition removedSockets (t : list Event) : list ProxyDevice.t :=
  omap (λ e, match e with EvRemoveSocket d => Some d | _ => None end) t.

(** The messages a trace writes to the SSH session, in order. *)
Definition written (t : list Event) : list string :=
  omap (λ e, match e with EvWriteString m => Some m | _ => None end) t.

(** The container API refuses the connection. *)
Definition world_no_connect : World.t :=
  World.mk (World.config world_ok) (World.IsValid world_ok)
    (World.IsDefaultProject world_ok) None (Some "connection refused")
    (World.UseProject world_ok) (World.GetInstanceUser world_ok)
    (World.NewAgentListener world_ok) (World.AddSocket world_ok)
    (World.Exec world_ok) (World.shlexSplit world_ok) (World.ptyStart world_ok)
    None (World.cmdWait world_ok).

(** The exec request of [session_echo] for [alice]. *)
Definition exec_echo : InstanceExec.t :=
  InstanceExec.mk "web01" ("/bin/bash -c " +:+ dq +:+ "echo $USER" +:+ dq)
    (setupEnvironmentVariables session_echo alice pty80) false (Window.mk 80 24)
    1000 1000 "/home/alice".

(** [shlex.Split] answers with an empty argument list. *)
Definition world_no_args : World.t :=
  World.mk (World.config world_ok) (World.IsValid world_ok)
    (World.IsDefaultProject world_ok) None None
    (World.UseProject world_ok) (World.GetInstanceUser world_ok)
    (World.NewAgentListener world_ok) (World.AddSocket world_ok)
    (World.Exec world_ok) (λ _ _, inr []) (World.ptyStart world_ok)
    None (World.cmdWait world_ok).

Definition is_PtyClose (e : Event) : bool :=
  match e with EvPtyClose => true | _ => false end.
Definition is_CmdWait (e : Event) : bool :=
  match e with EvCmdWait => true | _ => false end.

(** The child processes a trace starts with success. *)
Definition startedChildren (w : World.t) (t : list Event) : list Cmd.t :=
  omap (λ e, match e with
             | EvPtyStart cmd =>
                 match World.ptyStart w cmd with None => Some cmd | Some _ => None end
             | _ => None
             end) t.

(** [shlex.Split] fails. *)
Definition world_no_split : World.t :=
  World.mk (World.config world_ok) (World.IsValid world_ok)
    (World.IsDefaultProject world_ok) None None
    (World.UseProject world_ok) (World.GetInstanceUser world_ok)
    (World.NewAgentListener world_ok) (World.AddSocket world_ok)
    (World.Exec world_ok) (λ _ _, inl "unterminated quote") (World.ptyStart world_ok)
    None (World.cmdWait world_ok).

(** No PTY can be allocated on the host. *)
Definition world_no_pty : World.t :=
  World.mk (World.config world_ok) (World.IsValid world_ok)
    (World.IsDefaultProject world_ok) None None
    (World.UseProject world_ok) (World.GetInstanceUser world_ok)
    (World.NewAgentListener world_ok) (World.AddSocket world_ok)
    (World.Exec world_ok) (World.shlexSplit world_ok) (λ _, Some "out of ptys")
    None (World.cmdWait world_ok).

(** ** Vocabulary for the banner *)

(** The rule under the identity line. *)
Definition bannerRule : string := "────────────────────────────────────────────────".

(** The host part of the identity line in the second listing: nothing
    without a host name, else the host name, preceded by the remote when
    there is one. *)
Definition hostPart (remote hostname : string) : string :=
  if String.eqb hostname "" then ""
  else " 💻 " +:+ (if String.eqb remote "" then "" else remote +:+ " / ") +:+ hostname.

(** [n] copies of [line]. *)
Fixpoint copies (n : nat) (line : string) : string :=
  match n with
  | O => ""
  | S n' => copies n' line +:+ line
  end.

(** The package variable [banner] of the first listing after [n] calls of
    [bannerHandler] that started from the value [b]. *)
Fixpoint bannerAfter (e : BannerEnv.t) (ctx : Context.t) (n : nat) (b : string) : string :=
  match n with
  | O => b
  | S n' => (BannerVar.bannerHandler e ctx (bannerAfter e ctx n' b)).2
  end.

(** A context whose login comes with a remote. *)
Definition banner_env_remote : BannerEnv.t :=
  BannerEnv.mk (λ _, alice_web01)
    (λ _, LoginUser.mk "bob" "alice" "web01" "default" "lab")
    (λ _, true) (λ _, false) "host1".

(** ** [setWinsize]

    The handler hands [ioctl(TIOCSWINSZ)] a struct of four [uint16]:
    [uint16(h)], [uint16(w)], 0, 0.  The conversion of a Go [int] to
    [uint16] keeps the low 16 bits.  The model returns that struct. *)
Definition uint16 (n : Z) : Z := n mod 65536.

Module Winsize.
Record t : Type := mk { h : Z; w : Z; x : Z; y : Z }.
End Winsize.

Definition setWinsize (w h : Z) : Winsize.t :=
  Winsize.mk (uint16 h) (uint16 w) 0 0.

(** * Properties *)

(** ** Strings *)

Lemma IndexByte_None s c : strings.IndexByte s c = None ↔ ¬ has c s.
Proof.
  unfold has. induction s as [|a s IH]; simpl.
  - split; [intros _ []|done].
  - destruct (Ascii.eqb_spec a c) as [->|Hne].
    + split; [done|]. intros H. destruct H. by left.
    + destruct (strings.IndexByte s c) eqn:E; simpl.
      * split; [done|]. intros H. exfalso. destruct IH as [_ IH].
        assert (¬ In c (list_ascii_of_string s)) as H' by (intros ?; apply H; by right).
        by specialize (IH H').
      * split; [|done]. intros _ [?|?]; [done|]. by apply IH.
Qed.

Lemma IndexByte_Some s c m :
  strings.IndexByte s c = Some m →
  s = strings.slice_to m s +:+ String c (strings.slice_from (m + 1) s)
  ∧ ¬ has c (strings.slice_to m s).
Proof.
  unfold has. revert m. induction s as [|a s IH]; intros m; simpl; [done|].
  destruct (Ascii.eqb_spec a c) as [->|Hne].
  - intros [= <-]. simpl. split; [done|tauto].
  - destruct (strings.IndexByte s c) as [m'|] eqn:E; simpl; [|done].
    intros [= <-]. destruct (IH m' eq_refl) as [H1 H2]. split.
    + change (String a s = String a (strings.slice_to m' s +:+
                String c (strings.slice_from (m' + 1) s))).
      by f_equal.
    + simpl. intros [?|?]; [done|tauto].
Qed.

Lemma IndexByte_app s c x :
  ¬ has c s → strings.IndexByte (s +:+ String c x) c = Some (String.length s).
Proof.
  unfold has. induction s as [|a s IH]; simpl; intros H.
  - by rewrite Ascii.eqb_refl.
  - destruct (Ascii.eqb_spec a c) as [->|Hne]; [tauto|].
    rewrite IH; [done|tauto].
Qed.

Lemma slice_to_app s t : strings.slice_to (String.length s) (s +:+ t) = s.
Proof. induction s as [|a s IH]; simpl; [by destruct t|by rewrite IH]. Qed.

Lemma slice_from_app s c t :
  strings.slice_from (String.length s + 1) (s +:+ String c t) = t.
Proof. induction s as [|a s IH]; simpl; [done|by rewrite IH]. Qed.

Lemma Contains_has s c : strings.Contains s c = true ↔ has c s.
Proof.
  unfold strings.Contains. destruct (strings.IndexByte s c) as [m|] eqn:E.
  - split; [intros _|done].
    destruct (In_dec ascii_dec c (list_ascii_of_string s)) as [|Hn]; [done|].
    apply IndexByte_None in Hn. congruence.
  - apply IndexByte_None in E. split; [done|tauto].
Qed.

Lemma SplitN_2 v c :
  strings.SplitN v c 2 =
  match strings.IndexByte v c with
  | Some m => [strings.slice_to m v; strings.slice_from (m + 1) v]
  | None => [v]
  end.
Proof.
  unfold strings.SplitN, strings.genSplit.
  change (2 =? 0) with false. change (2 <? 0) with false. cbv iota.
  destruct v as [|a v]; [done|].
  assert ((Z.of_nat (String.length (String a v)) + 1 <? 2) = false) as ->
    by (apply Z.ltb_ge; simpl String.length; lia).
  change (Z.to_nat (2 - 1)) with 1%nat. cbn [strings.splitLoop].
  by destruct (strings.IndexByte (String a v) c).
Qed.

Lemma SplitN_entry v k x : strings.SplitN v "=" 2 = [k; x] ↔ is_entry v k x.
Proof.
  rewrite SplitN_2. unfold is_entry. split.
  - destruct (strings.IndexByte v "=") as [m|] eqn:E; [|done].
    intros [= <- <-]. by apply IndexByte_Some.
  - intros [-> Hk]. change (k +:+ "=" +:+ x) with (k +:+ String "=" x).
    rewrite IndexByte_app by done. by rewrite slice_to_app, slice_from_app.
Qed.

Lemma Count_le_length s c : (strings.Count s c ≤ String.length s)%nat.
Proof. induction s as [|a s IH]; simpl; [lia|]. destruct (Ascii.eqb a c); lia. Qed.

Lemma Count_zero s c : strings.Count s c = 0%nat → strings.IndexByte s c = None.
Proof.
  induction s as [|a s IH]; simpl; [done|].
  destruct (Ascii.eqb a c); [done|]. intros H. by rewrite IH.
Qed.

Lemma Split_head addr c :
  strings.Split addr c !! 0%nat =
  Some (match strings.IndexByte addr c with
        | Some m => strings.slice_to m addr
        | None => addr
        end).
Proof.
  unfold strings.Split, strings.genSplit.
  change (-1 =? 0) with false. change (-1 <? 0) with true. cbv iota.
  pose proof (Count_le_length addr c) as Hle.
  assert ((Z.of_nat (String.length addr) + 1 <? Z.of_nat (strings.Count addr c) + 1) = false)
    as -> by (apply Z.ltb_ge; lia).
  replace (Z.to_nat (Z.of_nat (strings.Count addr c) + 1 - 1))
    with (strings.Count addr c) by lia.
  destruct (strings.Count addr c) eqn:E; simpl.
  - by rewrite (Count_zero _ _ E).
  - by destruct (strings.IndexByte addr c).
Qed.

Lemma is_host_head addr :
  is_host addr (match strings.IndexByte addr ":" with
                | Some m => strings.slice_to m addr
                | None => addr
                end).
Proof.
  unfold is_host. destruct (strings.IndexByte addr ":") as [m|] eqn:E.
  - destruct (IndexByte_Some _ _ _ E) as [H1 H2]. split; [done|].
    right. by exists (strings.slice_from (m + 1) addr).
  - split; [by apply IndexByte_None|by left].
Qed.

Lemma length_append_string s t :
  String.length (s +:+ t) = (String.length s + String.length t)%nat.
Proof. induction s as [|a s IH]; simpl; [done|by rewrite IH]. Qed.

(** [buildCommandString] never indexes out of range. *)
Lemma buildCommandString_total config s iu remoteAddr :
  is_Some (buildCommandString config s iu remoteAddr).
Proof.
  unfold buildCommandString. repeat case_match; try done.
  rewrite Split_head. simpl. eauto.
Qed.

(** C1. [buildCommandString] follows the command-string rules.  With an empty
    raw command: mode [su] gives [su - "<user>"] and mode [login] gives
    [login -h "<host>" -f "<user>"], both run as the host user (the flag
    [shouldRunAsUser] is false), and mode [shell] gives [<shell> -l], run as
    the in-container user.  With a non-empty raw command the flag is always
    true, and the command is wrapped as [<shell> -c "<cmd>"] exactly when it
    contains the byte [$], and is returned unchanged otherwise. *)
Theorem buildCommandString_rules config s iu remoteAddr :
  let raw := Session.RawCommand s in
  let user := InstanceUser.User iu in
  let shell := InstanceUser.Shell iu in
  let mode := Config.Shell config in
  let result := buildCommandString config s iu remoteAddr in
  (raw = "" →
     (mode = "su" → result = Some ("su - " +:+ dq +:+ user +:+ dq, false))
     ∧ (mode = "login" →
          ∃ host, is_host remoteAddr host ∧
            result = Some ("login -h " +:+ dq +:+ host +:+ dq +:+ " -f " +:+ dq +:+ user +:+ dq,
                           false))
     ∧ (mode = "shell" → result = Some (shell +:+ " -l", true)))
  ∧ (raw ≠ "" →
       ∃ cmd, result = Some (cmd, true)
         ∧ (cmd = shell +:+ " -c " +:+ dq +:+ raw +:+ dq ↔ has "$" raw)
         ∧ (¬ has "$" raw → cmd = raw)).
Proof.
  intros raw user shell mode result. subst result. unfold buildCommandString.
  fold raw mode user shell. split.
  - intros ->. change (String.eqb "" "") with true. cbv iota. repeat split.
    + by intros ->.
    + intros ->. change (String.eqb "login" ShellSu) with false.
      change (String.eqb "login" ShellLogin) with true. cbv iota.
      rewrite Split_head. eexists. split; [apply is_host_head|done].
    + by intros ->.
  - intros Hraw. destruct (String.eqb_spec raw "") as [|_]; [done|].
    destruct (strings.Contains raw "$") eqn:E.
    + eexists. split; [done|]. apply Contains_has in E. split; [|done]. split; [done|].
      intros _. reflexivity.
    + assert (¬ has "$" raw) as Hn.
      { intros H. apply Contains_has in H. congruence. }
      exists raw. split; [done|]. split; [|done]. split; [|done].
      intros Heq. apply (f_equal String.length) in Heq.
      rewrite !length_append_string in Heq. simpl in Heq. lia.
Qed.

Lemma buildCommandString_rules_witness :
  buildCommandString (Config.mk "su" "/run/incus.sock") session_agent alice "10.0.0.1:2222"
    = Some ("su - " +:+ dq +:+ "alice" +:+ dq, false)
  ∧ (∃ host, is_host "10.0.0.1:2222" host ∧
       buildCommandString (Config.mk "login" "/run/incus.sock") session_agent alice
         "10.0.0.1:2222"
       = Some ("login -h " +:+ dq +:+ host +:+ dq +:+ " -f " +:+ dq +:+ "alice" +:+ dq, false))
  ∧ buildCommandString (Config.mk "shell" "/run/incus.sock") session_agent alice
      "10.0.0.1:2222" = Some ("/bin/bash -l", true)
  ∧ ∃ cmd, buildCommandString (Config.mk "su" "/run/incus.sock") session_echo alice
             "10.0.0.1:2222" = Some (cmd, true)
      ∧ (cmd = "/bin/bash" +:+ " -c " +:+ dq +:+ "echo $USER" +:+ dq ↔ has "$" "echo $USER")
      ∧ (¬ has "$" "echo $USER" → cmd = "echo $USER").
Proof.
  split; [|split; [|split]].
  - exact (proj1 (proj1 (buildCommandString_rules (Config.mk "su" "/run/incus.sock")
                           session_agent alice "10.0.0.1:2222") eq_refl) eq_refl).
  - exact (proj1 (proj2 (proj1 (buildCommandString_rules (Config.mk "login" "/run/incus.sock")
                                  session_agent alice "10.0.0.1:2222") eq_refl)) eq_refl).
  - exact (proj2 (proj2 (proj1 (buildCommandString_rules (Config.mk "shell" "/run/incus.sock")
                                  session_agent alice "10.0.0.1:2222") eq_refl)) eq_refl).
  - apply (buildCommandString_rules (Config.mk "su" "/run/incus.sock") session_echo alice
             "10.0.0.1:2222").
    simpl. discriminate.
Defined.

(** ** The environment map *)

Lemma envStep_entry env v k x : is_entry v k x → envStep env v = <[k := x]> env.
Proof. intros H. apply SplitN_entry in H. unfold envStep. by rewrite H. Qed.

Lemma envStep_other env v k :
  (∀ x, ¬ is_entry v k x) → envStep env v !! k = env !! k.
Proof.
  intros H. unfold envStep.
  destruct (strings.SplitN v "=" 2) as [|k' [|x' [|? ?]]] eqn:E; try done.
  apply SplitN_entry in E. rewrite lookup_insert_ne; [done|].
  intros ->. by apply (H x').
Qed.

Lemma foldl_envStep_other post env k :
  (∀ v' x', In v' post → ¬ is_entry v' k x') →
  foldl envStep env post !! k = env !! k.
Proof.
  revert env. induction post as [|v post IH]; intros env H; simpl; [done|].
  rewrite IH.
  - apply envStep_other. intros x. apply H. by left.
  - intros v' x' Hin. apply H. by right.
Qed.

Lemma foldl_envStep_last pre v post k x env :
  is_entry v k x →
  (∀ v' x', In v' post → ¬ is_entry v' k x') →
  foldl envStep env (pre ++ v :: post)%list !! k = Some x.
Proof.
  intros Hv Hpost. rewrite foldl_app. simpl.
  rewrite foldl_envStep_other by done.
  rewrite (envStep_entry _ _ _ _ Hv). apply lookup_insert_eq.
Qed.

(** The four assignments after the loop leave every other name as the loop
    set it. *)
Lemma setupEnvironmentVariables_other s iu p k :
  k ∉ reservedNames →
  setupEnvironmentVariables s iu p !! k = foldl envStep ∅ (Session.Environ s) !! k.
Proof.
  unfold reservedNames. intros Hk. unfold setupEnvironmentVariables.
  assert (k ≠ "TERM" ∧ k ≠ "USER" ∧ k ≠ "HOME" ∧ k ≠ "SHELL") as (?&?&?&?).
  { repeat split; intros ->; apply Hk; set_solver. }
  rewrite !lookup_insert_ne by done.
  destruct (negb _); by rewrite lookup_insert_ne.
Qed.

(** C2, as the code has it.  The environment map holds, for every [KEY=VALUE]
    entry of the session's environment request whose key is not sent again
    later in the request and is none of [TERM], [USER], [HOME], [SHELL], that
    key with that value (a key sent more than once keeps the value sent
    last); it maps [TERM] to the PTY's term when that is non-empty and to
    [xterm-256color] otherwise, and [USER], [HOME] and [SHELL] to the instance
    user's name, home directory and shell, whatever the client sent under
    those names. *)
Theorem setupEnvironmentVariables_spec s iu p :
  let env := setupEnvironmentVariables s iu p in
  (∀ pre v post k x,
     Session.Environ s = (pre ++ v :: post)%list →
     is_entry v k x →
     (∀ v' x', In v' post → ¬ is_entry v' k x') →
     k ∉ reservedNames →
     env !! k = Some x)
  ∧ env !! "TERM" = Some (if String.eqb (Pty.Term p) "" then "xterm-256color" else Pty.Term p)
  ∧ env !! "USER" = Some (InstanceUser.User iu)
  ∧ env !! "HOME" = Some (InstanceUser.Dir iu)
  ∧ env !! "SHELL" = Some (InstanceUser.Shell iu).
Proof.
  intros env. subst env. split; [|split; [|split; [|split]]].
  - intros pre v post k x HE Hv Hpost Hk.
    rewrite setupEnvironmentVariables_other by done.
    rewrite HE. by apply foldl_envStep_last.
  - unfold setupEnvironmentVariables.
    rewrite !lookup_insert_ne by done.
    destruct (String.eqb (Pty.Term p) ""); simpl; apply lookup_insert_eq.
  - unfold setupEnvironmentVariables.
    rewrite !lookup_insert_ne by done. apply lookup_insert_eq.
  - unfold setupEnvironmentVariables.
    rewrite !lookup_insert_ne by done. apply lookup_insert_eq.
  - unfold setupEnvironmentVariables. apply lookup_insert_eq.
Qed.

Lemma setupEnvironmentVariables_spec_witness :
  setupEnvironmentVariables session_dup alice pty80 !! "A" = Some "2".
Proof.
  apply (setupEnvironmentVariables_spec session_dup alice pty80) with
    (pre := ["A=1"]) (v := "A=2") (post := []).
  - reflexivity.
  - split; [reflexivity|]. unfold has. simpl. intros [H|[]]. discriminate H.
  - intros v' x' [].
  - unfold reservedNames. intros H.
    repeat (apply elem_of_cons in H as [H|H]; [discriminate H|]).
    by apply elem_of_nil in H.
Defined.

(** C2, as stated, fails when the client sends a key twice: the map keeps
    only the value sent last, so the earlier entry [A=1] is not in it. *)
Lemma setupEnvironmentVariables_duplicate_key :
  ¬ contains_every_entry session_dup (setupEnvironmentVariables session_dup alice pty80).
Proof.
  intros H. specialize (H "A=1" "A" "1").
  assert (setupEnvironmentVariables session_dup alice pty80 !! "A" = Some "2") as E
    by (vm_compute; reflexivity).
  rewrite E in H. enough (Some "2" = Some "1") by discriminate. apply H.
  - simpl. by left.
  - split; [reflexivity|]. unfold has. simpl. intros [Hc|[]]. discriminate Hc.
  - unfold reservedNames. intros Hin.
    repeat (apply elem_of_cons in Hin as [Hin|Hin]; [discriminate Hin|]).
    by apply elem_of_nil in Hin.
Qed.

(** ** The dispatcher *)

(** Unfold the monad down to the next question put to a collaborator. *)
Ltac mred :=
  cbv beta iota zeta delta
    [handlerTrace mbind M_bind mret M_ret emit defer return_ panic call run liftOpt
     setupAgent trace deferred fst snd negb andb].

(** Split on the answer to the next closed question. *)
Ltac step :=
  match goal with
  | |- context [match ?x with _ => _ end] =>
      lazymatch x with
      | context [match _ with _ => _ end] => fail
      | _ => destruct x eqn:?
      end
  end.

Ltac all_paths := repeat (mred; step); mred; cbn [app In].

Lemma verb_s a : fmt.verb "s" a = a.
Proof. reflexivity. Qed.

Lemma not_self_service lu :
  ¬ (LoginUser.User lu = "root" ∧ LoginUser.Instance lu = "%shell") →
  String.eqb (LoginUser.User lu) "root" && String.eqb (LoginUser.Instance lu) "%shell"
  = false.
Proof.
  intros H.
  destruct (String.eqb_spec (LoginUser.User lu) "root");
    destruct (String.eqb_spec (LoginUser.Instance lu) "%shell"); simpl; tauto.
Qed.

(** Rewrite with what [connected] says of the collaborators. *)
Ltac enter Hctx Hconn :=
  let Hv := fresh in let Hn := fresh in let Hs := fresh in let Hc := fresh in
  destruct Hconn as (Hv & Hn & Hs & Hc);
  unfold handlerTrace, run, call, shellHandler;
  rewrite Hctx, Hv, (not_self_service _ Hn), Hs, Hc.

(** With the default project [UseProject] is never called, whatever else
    happens to the session. *)
Lemma default_project_no_UseProject w s lu p :
  Session.ctxLoginUser s = Some lu →
  World.IsDefaultProject w lu = true →
  ¬ In (EvUseProject p) (handlerTrace w s).
Proof.
  intros Hctx Hd. unfold handlerTrace, run, call, shellHandler.
  rewrite Hctx, Hd. unfold incusShell.
  all_paths; intuition congruence.
Qed.

(** A session that gets as far as project selection with another project
    than the default one calls [UseProject] with it. *)
Lemma other_project_UseProject w s lu :
  Session.ctxLoginUser s = Some lu →
  connected w lu →
  World.IsDefaultProject w lu = false →
  In (EvUseProject (LoginUser.Project lu)) (handlerTrace w s).
Proof.
  intros Hctx Hconn Hd. enter Hctx Hconn. rewrite Hd.
  all_paths; tauto.
Qed.

(** The trace of a session whose project is unknown. *)
Lemma unknown_project_trace w s lu e :
  Session.ctxLoginUser s = Some lu →
  connected w lu →
  World.IsDefaultProject w lu = false →
  World.UseProject w (LoginUser.Project lu) = Some e →
  run (shellHandler w s) =
  ([EvLog LvlDebug "shell: connecting %#v"; EvNewIncusServer; EvConnect;
    EvUseProject (LoginUser.Project lu);
    EvLog LvlError "using project %s error: %w";
    EvWriteString ("unknown project " +:+ LoginUser.Project lu +:+ nl);
    EvExit ExitCodeInvalidProject;
    EvDisconnect], Returned).
Proof.
  intros Hctx Hconn Hd Hu. enter Hctx Hconn. rewrite Hd, Hu. reflexivity.
Qed.

(** C3. For a session whose login descriptor names a project other than
    [default] (and which has passed validation and connected to the container
    API) the dispatcher calls [UseProject] with that project; if [UseProject]
    fails, it writes [unknown project <project>\n] to the SSH session and
    exits with code 2 ([ExitCodeInvalidProject]), the exec engine is not
    invoked, and nothing follows but the deferred [Disconnect].  When the
    project is [default], [UseProject] is never called. *)
Theorem shellHandler_project w s lu :
  Session.ctxLoginUser s = Some lu →
  (World.IsDefaultProject w lu = false →
   connected w lu →
     In (EvUseProject (LoginUser.Project lu)) (handlerTrace w s)
     ∧ (∀ e, World.UseProject w (LoginUser.Project lu) = Some e →
          run (shellHandler w s) =
            ([EvLog LvlDebug "shell: connecting %#v"; EvNewIncusServer; EvConnect;
              EvUseProject (LoginUser.Project lu);
              EvLog LvlError "using project %s error: %w";
              EvWriteString ("unknown project " +:+ LoginUser.Project lu +:+ nl);
              EvExit ExitCodeInvalidProject;
              EvDisconnect], Returned)
          ∧ exitCodes (handlerTrace w s) = [2]
          ∧ execRequests (handlerTrace w s) = []))
  ∧ (World.IsDefaultProject w lu = true → ∀ p, ¬ In (EvUseProject p) (handlerTrace w s)).
Proof.
  intros Hctx. split.
  - intros Hd Hconn. split; [by apply (other_project_UseProject w s lu)|].
    intros e Hu. pose proof (unknown_project_trace w s lu e Hctx Hconn Hd Hu) as Ht.
    unfold handlerTrace. rewrite Ht. done.
  - intros Hd p. by apply (default_project_no_UseProject w s lu).
Qed.

Lemma shellHandler_project_witness :
  run (shellHandler world_ok session_ghost) =
    ([EvLog LvlDebug "shell: connecting %#v"; EvNewIncusServer; EvConnect;
      EvUseProject "ghost";
      EvLog LvlError "using project %s error: %w";
      EvWriteString ("unknown project ghost" +:+ nl);
      EvExit 2;
      EvDisconnect], Returned)
  ∧ ∀ p, ¬ In (EvUseProject p) (handlerTrace world_ok session_echo).
Proof.
  split.
  - refine (proj1 (proj2 (proj1 (shellHandler_project world_ok session_ghost bob_ghost
                                   eq_refl) eq_refl _) "no such project" eq_refl)).
    repeat split. simpl. intros [H _]. discriminate H.
  - exact (proj2 (shellHandler_project world_ok session_echo alice_web01 eq_refl) eq_refl).
Defined.

(** C4. For a session that has come to user resolution, when
    [GetInstanceUser] returns nil for the descriptor's (project, instance,
    user), and also when the descriptor's instance user is empty, in which
    case the lookup is not made at all, the dispatcher writes
    [not found user or instance\n] to the SSH session and exits with
    [ExitCodeInvalidLogin] (1); the exec engine is not invoked. *)
Theorem shellHandler_user_not_found w s lu :
  Session.ctxLoginUser s = Some lu →
  connected w lu →
  project_ok w lu →
  LoginUser.InstanceUser lu = ""
  ∨ World.GetInstanceUser w (LoginUser.Project lu) (LoginUser.Instance lu)
      (LoginUser.InstanceUser lu) = None →
  run (shellHandler w s) =
    ((lookupPrefix w lu ++
        [EvWriteString ("not found user or instance" +:+ nl);
         EvLog LvlError "shell: not found instance user for %#v";
         EvExit ExitCodeInvalidLogin;
         EvDisconnect])%list, Returned)
  ∧ exitCodes (handlerTrace w s) = [1]
  ∧ execRequests (handlerTrace w s) = []
  ∧ (LoginUser.InstanceUser lu = "" →
     ∀ p i u, ¬ In (EvGetInstanceUser p i u) (handlerTrace w s)).
Proof.
  intros Hctx Hconn Hproj Hnil.
  assert (run (shellHandler w s) =
    ((lookupPrefix w lu ++
        [EvWriteString ("not found user or instance" +:+ nl);
         EvLog LvlError "shell: not found instance user for %#v";
         EvExit ExitCodeInvalidLogin;
         EvDisconnect])%list, Returned)) as Ht.
  { enter Hctx Hconn. unfold lookupPrefix.
    destruct Hproj as [Hd|Hu], Hnil as [He|Hg].
    - rewrite Hd, He. reflexivity.
    - rewrite Hd, Hg. by destruct (String.eqb (LoginUser.InstanceUser lu) "").
    - rewrite Hu, He. by destruct (World.IsDefaultProject w lu).
    - rewrite Hu, Hg.
      by destruct (World.IsDefaultProject w lu), (String.eqb (LoginUser.InstanceUser lu) ""). }
  split; [done|]. unfold handlerTrace. rewrite Ht. unfold lookupPrefix.
  cbn [fst]. repeat split.
  - by destruct (World.IsDefaultProject w lu), (String.eqb (LoginUser.InstanceUser lu) "").
  - by destruct (World.IsDefaultProject w lu), (String.eqb (LoginUser.InstanceUser lu) "").
  - intros -> p i u. change (String.eqb "" "") with true.
    destruct (World.IsDefaultProject w lu); cbn [app In]; intuition congruence.
Qed.

Lemma shellHandler_user_not_found_witness :
  run (shellHandler world_ok session_nobody) =
    ([EvLog LvlDebug "shell: connecting %#v"; EvNewIncusServer; EvConnect;
      EvWriteString ("not found user or instance" +:+ nl);
      EvLog LvlError "shell: not found instance user for %#v";
      EvExit 1;
      EvDisconnect], Returned).
Proof.
  refine (proj1 (shellHandler_user_not_found world_ok session_nobody nobody_web01
                   eq_refl _ _ _)).
  - repeat split. simpl. intros [H _]. discriminate H.
  - left. reflexivity.
  - left. reflexivity.
Defined.

(** A session that is not the self-service form asks for the container API
    client right after the debug line. *)
Lemma normal_second_event w s lu :
  Session.ctxLoginUser s = Some lu →
  World.IsValid w lu = true →
  ¬ (LoginUser.User lu = "root" ∧ LoginUser.Instance lu = "%shell") →
  handlerTrace w s !! 1%nat = Some EvNewIncusServer.
Proof.
  intros Hctx Hv Hn. unfold handlerTrace, run, call, shellHandler.
  rewrite Hctx, Hv, (not_self_service _ Hn).
  all_paths; reflexivity.
Qed.

(** ... and never splits the self-service command line. *)
Lemma normal_no_ShlexSplit w s lu c b :
  Session.ctxLoginUser s = Some lu →
  World.IsValid w lu = true →
  ¬ (LoginUser.User lu = "root" ∧ LoginUser.Instance lu = "%shell") →
  ¬ In (EvShlexSplit c b) (handlerTrace w s).
Proof.
  intros Hctx Hv Hn. unfold handlerTrace, run, call, shellHandler.
  rewrite Hctx, Hv, (not_self_service _ Hn).
  all_paths; intuition congruence.
Qed.

(** [incusShell] begins by splitting its command line. *)
Lemma incusShell_second_event w s :
  (run (emit (EvLog LvlDebug "shell: connecting %#v");; call (incusShell w s))).1
    !! 1%nat = Some (EvShlexSplit cmdString true).
Proof. unfold incusShell. all_paths; reflexivity. Qed.

Lemma self_service_delegates w s lu :
  Session.ctxLoginUser s = Some lu →
  World.IsValid w lu = true →
  LoginUser.User lu = "root" → LoginUser.Instance lu = "%shell" →
  delegates_to_incusShell w s.
Proof.
  intros Hctx Hv Hu Hi. unfold delegates_to_incusShell, run, call, shellHandler.
  rewrite Hctx, Hv, Hu, Hi. change (String.eqb "root" "root") with true.
  change (String.eqb "%shell" "%shell") with true. unfold incusShell.
  all_paths; reflexivity.
Qed.

(** C5. For a session with a valid login descriptor, the dispatcher delegates
    to the self-service subshell [incusShell] if and only if the descriptor's
    user is [root] and its instance is [%shell]; a [%shell] instance with
    another user is handled as a normal instance lookup: the handler goes on
    to the container API and does nothing of what [incusShell] does. *)
Theorem shellHandler_self_service w s lu :
  Session.ctxLoginUser s = Some lu →
  World.IsValid w lu = true →
  (delegates_to_incusShell w s
   ↔ LoginUser.User lu = "root" ∧ LoginUser.Instance lu = "%shell")
  ∧ (LoginUser.Instance lu = "%shell" → LoginUser.User lu ≠ "root" →
     ¬ delegates_to_incusShell w s
     ∧ starts_instance_lookup w s
     ∧ ∀ c b, ¬ In (EvShlexSplit c b) (handlerTrace w s)).
Proof.
  intros Hctx Hv.
  assert (¬ (LoginUser.User lu = "root" ∧ LoginUser.Instance lu = "%shell") →
          ¬ delegates_to_incusShell w s) as Hnot.
  { intros Hn Hd. pose proof (normal_second_event w s lu Hctx Hv Hn) as H1.
    pose proof (incusShell_second_event w s) as H2.
    unfold delegates_to_incusShell in Hd. unfold handlerTrace in H1.
    rewrite Hd, H2 in H1. discriminate H1. }
  split; [split|].
  - intros Hd.
    destruct (String.eqb_spec (LoginUser.User lu) "root") as [Hu|Hu];
      destruct (String.eqb_spec (LoginUser.Instance lu) "%shell") as [Hi|Hi];
      try done; exfalso; apply Hnot; tauto.
  - intros [Hu Hi]. by apply (self_service_delegates w s lu).
  - intros Hi Hu. assert (¬ (LoginUser.User lu = "root" ∧ LoginUser.Instance lu = "%shell"))
      as Hn by tauto.
    split; [by apply Hnot|]. split.
    + by apply (normal_second_event w s lu).
    + intros c b. by apply (normal_no_ShlexSplit w s lu).
Qed.

Lemma shellHandler_self_service_witness :
  delegates_to_incusShell world_ok session_shell_pty
  ∧ ¬ delegates_to_incusShell world_ok session_bob_shell
  ∧ starts_instance_lookup world_ok session_bob_shell.
Proof.
  split.
  - apply (proj1 (shellHandler_self_service world_ok session_shell_pty root_shell
                    eq_refl eq_refl)).
    split; reflexivity.
  - destruct (proj2 (shellHandler_self_service world_ok session_bob_shell bob_shell
                       eq_refl eq_refl) eq_refl) as (H1 & H2 & _).
    + simpl. discriminate.
    + split; [exact H1|exact H2].
Defined.

(** ** Agent forwarding *)

Ltac no_panic :=
  try match goal with
      | H : buildCommandString ?c ?s ?iu ?a = None |- _ =>
          exfalso; destruct (buildCommandString_total c s iu a) as [? ?]; congruence
      end.

Lemma no_entry_no_key (l : list string) k :
  (∀ v x, In v l → ¬ is_entry v k x) → foldl envStep ∅ l !! k = None.
Proof. intros H. rewrite foldl_envStep_other; [done|]. intros v x. apply H. Qed.

(** C6, as the code has it.  For a session that asks for agent forwarding
    and whose agent listener is created: when [AddSocket] fails, the failure
    is logged and the session goes on, the exec runs with the environment
    [setupEnvironmentVariables] built (so [SSH_AUTH_SOCK] is in it only if the
    client sent it) and [RemoveSocket] is not called; when [AddSocket]
    succeeds, [SSH_AUTH_SOCK] is set to the returned in-container path and
    [RemoveSocket] is called exactly once, after the exit code is sent,
    whatever the remote command returned. *)
Theorem shellHandler_agent_forwarding w s lu iu addr :
  Session.ctxLoginUser s = Some lu →
  connected w lu →
  project_ok w lu →
  resolved w lu iu →
  Session.AgentRequested s = true →
  World.NewAgentListener w = inr addr →
  let d := ProxyDevice.mk (LoginUser.Project lu) (LoginUser.Instance lu) addr
             (InstanceUser.Uid iu) (InstanceUser.Gid iu) "0660" in
  let env0 := setupEnvironmentVariables s iu (Session.PtyReq s) in
  let t := handlerTrace w s in
  (∀ e, World.AddSocket w d = inl e →
     ∃ ie, In (EvLog LvlError "Failed to add socket: %w") t
       ∧ execRequests t = [ie]
       ∧ InstanceExec.Env ie = env0
       ∧ ((∀ v x, In v (Session.Environ s) → ¬ is_entry v "SSH_AUTH_SOCK" x) →
          InstanceExec.Env ie !! "SSH_AUTH_SOCK" = None)
       ∧ exitCodes t = [(World.Exec w ie).1]
       ∧ filter is_RemoveSocket t = [])
  ∧ (∀ path, World.AddSocket w d = inr path →
     ∃ ie, execRequests t = [ie]
       ∧ InstanceExec.Env ie = <["SSH_AUTH_SOCK" := path]> env0
       ∧ InstanceExec.Env ie !! "SSH_AUTH_SOCK" = Some path
       ∧ exitCodes t = [(World.Exec w ie).1]
       ∧ filter is_RemoveSocket t = [EvRemoveSocket d]
       ∧ ∃ pre post, t = (pre ++ EvExit (World.Exec w ie).1 :: post)%list
                     ∧ In (EvRemoveSocket d) post).
Proof.
  intros Hctx Hconn Hproj [Hne Hres] Hagent Hl d env0 t.
  apply String.eqb_neq in Hne.
  split.
  - intros e Hadd. subst t d. enter Hctx Hconn. rewrite Hne, Hres, Hagent.
    unfold setupAgent. rewrite Hl.
    destruct Hproj as [Hd|Hu]; [rewrite Hd|rewrite Hu];
      mred; rewrite Hadd; fold env0;
      all_paths; no_panic;
      (eexists; split; [tauto|]; split; [reflexivity|]; split; [reflexivity|];
       split;
       [intros Hno; cbn [InstanceExec.Env]; unfold env0;
        rewrite setupEnvironmentVariables_other
          by (unfold reservedNames; intros Hin;
              repeat (apply elem_of_cons in Hin as [Hin|Hin]; [discriminate Hin|]);
              by apply elem_of_nil in Hin);
        by apply no_entry_no_key
       |]; split; [|reflexivity]);
      match goal with H : World.Exec _ _ = _ |- _ => rewrite H end; reflexivity.
  - intros path Hadd. subst t d. enter Hctx Hconn. rewrite Hne, Hres, Hagent.
    unfold setupAgent. rewrite Hl.
    destruct Hproj as [Hd|Hu]; [rewrite Hd|rewrite Hu];
      mred; rewrite Hadd; fold env0;
      all_paths; no_panic;
      (eexists; split; [reflexivity|]; split; [reflexivity|];
       split; [apply lookup_insert_eq|]);
      match goal with H : World.Exec _ _ = _ |- _ => rewrite H end;
      (split; [reflexivity|]; split; [reflexivity|]); cbn [fst];
      match goal with
      | |- ∃ pre post, ?l = _ ∧ _ =>
          match l with
          | context [EvExit _ :: ?q] =>
              exists (take (length l - S (length q)) l), q
          end
      end;
      (split; [reflexivity|cbn [In]; tauto]).
Qed.

Lemma world_ok_connected lu :
  ¬ (LoginUser.User lu = "root" ∧ LoginUser.Instance lu = "%shell") →
  connected world_ok lu ∧ connected world_no_socket lu.
Proof. intros H. by repeat split. Qed.

Lemma shellHandler_agent_forwarding_witness :
  (∃ ie, execRequests (handlerTrace world_ok session_agent) = [ie]
     ∧ InstanceExec.Env ie !! "SSH_AUTH_SOCK" = Some "/run/agent.sock"
     ∧ filter is_RemoveSocket (handlerTrace world_ok session_agent)
       = [EvRemoveSocket (ProxyDevice.mk "default" "web01" "/tmp/agent.1" 1000 1000 "0660")])
  ∧ (∃ ie, execRequests (handlerTrace world_no_socket session_agent) = [ie]
       ∧ InstanceExec.Env ie !! "SSH_AUTH_SOCK" = None
       ∧ exitCodes (handlerTrace world_no_socket session_agent) = [-1]
       ∧ filter is_RemoveSocket (handlerTrace world_no_socket session_agent) = []).
Proof.
  assert (¬ (LoginUser.User alice_web01 = "root" ∧ LoginUser.Instance alice_web01 = "%shell"))
    as Hn by (simpl; intros [H _]; discriminate H).
  assert (resolved world_ok alice_web01 alice) as Hres.
  { split; [simpl; discriminate|reflexivity]. }
  split.
  - destruct (proj2 (shellHandler_agent_forwarding world_ok session_agent alice_web01 alice
                       "/tmp/agent.1" eq_refl (proj1 (world_ok_connected _ Hn))
                       (or_introl eq_refl) Hres eq_refl eq_refl)
                "/run/agent.sock" eq_refl) as (ie & H1 & _ & H3 & _ & H5 & _).
    exists ie. split; [exact H1|]. split; [exact H3|exact H5].
  - destruct (proj1 (shellHandler_agent_forwarding world_no_socket session_agent alice_web01
                       alice "/tmp/agent.1" eq_refl (proj2 (world_ok_connected _ Hn))
                       (or_introl eq_refl) Hres eq_refl eq_refl)
                "device add failed" eq_refl) as (ie & _ & H2 & _ & H4 & H5 & H6).
    exists ie. split; [exact H2|]. split; [|split; [exact H5|exact H6]].
    apply H4. intros v x [<-|[]] [H _]. discriminate H.
Defined.

Lemma In_execRequests t ie : In (EvExec ie) t → In ie (execRequests t).
Proof.
  induction t as [|e t IH]; [done|]. intros [->|Hin].
  - by left.
  - unfold execRequests in *. destruct e; simpl; auto.
Qed.

(** C6, as stated, fails in two ways.  When the agent listener cannot be
    created the handler logs the failure and returns: no exec runs.  When
    [AddSocket] fails and the client itself sent [SSH_AUTH_SOCK], the exec
    runs with the client's value in its environment. *)
Lemma agent_setup_failure_counterexample :
  (World.NewAgentListener world_no_listener = inl "listen: permission denied"
   ∧ ¬ continues_without_agent world_no_listener session_agent)
  ∧ ((∀ d, World.AddSocket world_no_socket d = inl "device add failed")
     ∧ ¬ continues_without_agent world_no_socket session_agent_env).
Proof.
  split; (split; [done|]); intros (ie & Hin & Hnone); apply In_execRequests in Hin.
  - assert (execRequests (handlerTrace world_no_listener session_agent) = []) as E
      by (vm_compute; reflexivity).
    rewrite E in Hin. destruct Hin.
  - eassert (execRequests (handlerTrace world_no_socket session_agent_env) = [_]) as E
      by (vm_compute; reflexivity).
    rewrite E in Hin. destruct Hin as [<-|[]].
    vm_compute in Hnone. discriminate Hnone.
Qed.

(** What the handler does when the agent listener cannot be created. *)
Lemma no_listener_trace :
  run (shellHandler world_no_listener session_agent) =
  ([EvLog LvlDebug "shell: connecting %#v"; EvNewIncusServer; EvConnect;
    EvGetInstanceUser "default" "web01" "alice";
    EvNewAgentListener;
    EvLog LvlError "Failed to create agent listener: %w";
    EvDisconnect], Returned).
Proof. vm_compute. reflexivity. Qed.

(** ** The self-service subshell *)

Lemma append_empty_r s : s +:+ "" = s.
Proof.
  induction s as [|a s IH]; [done|].
  change (String a (s +:+ "") = String a s). by rewrite IH.
Qed.

(** A format that is a literal followed by [%s]. *)
Lemma Sprintf_suffix lit a :
  ¬ has "%" lit → fmt.Sprintf (lit +:+ "%s") [a] = lit +:+ a.
Proof.
  unfold has. induction lit as [|c lit IH]; intros H.
  - change (a +:+ "" = a). apply append_empty_r.
  - simpl in H. change (String c lit +:+ "%s") with (String c (lit +:+ "%s")).
    change (String c lit +:+ a) with (String c (lit +:+ a)).
    rewrite <- IH by tauto.
    assert (c ≠ "%"%char) as Hc by tauto.
    unfold fmt.Sprintf at 1. fold fmt.Sprintf.
    destruct c as [[] [] [] [] [] [] [] []]; try reflexivity. by destruct Hc.
Qed.




(** For a child that ends with exit code 0 the handler itself makes no call
    of [s.Exit]: the status of the session is then the one the SSH layer
    supplies. *)
Lemma incusShell_zero_exit_no_Exit_call :
  (∀ cmd, World.cmdWait world_child_ok cmd = WaitNil)
  ∧ In EvCmdWait (run (incusShell world_child_ok session_shell_pty)).1
  ∧ ∀ c, ¬ incusShell_exits_with world_child_ok session_shell_pty c.
Proof.
  split; [done|]. unfold incusShell_exits_with.
  assert (run (incusShell world_child_ok session_shell_pty) =
    ([EvShlexSplit cmdString true;
      EvPtyStart (Cmd.mk ["bash"; "-c"; "loop"]
                    ["TERM=xterm"; "PATH=/bin:/usr/bin:/snap/bin:/usr/local/bin";
                     "INCUS_SOCKET=/run/incus/unix.socket"]);
      EvWriteString welcome; EvGoResize; EvGoCopyStdin; EvCopyOutput; EvCmdWait;
      EvCancel; EvPtyClose], Returned)) as -> by (vm_compute; reflexivity).
  cbn [fst In]. split; [tauto|]. intros c. intuition congruence.
Qed.

(** ** The banner *)

Lemma bannerLine_nonempty args :
  ∃ c r, fmt.Sprintf bannerLineFormat args = String c r.
Proof. eexists _, _. reflexivity. Qed.

(** C8 against the first listing.  Every call with a valid login appends the
    identity line to the package-level [banner]: the variable is changed, and
    a second call for the same login and host returns a longer, different
    string. *)
Theorem bannerHandler_var_accumulates e ctx b :
  BannerEnv.IsValid e (BannerEnv.parseLoginUser e (Context.User ctx)) = true →
  let '(r1, b1) := BannerVar.bannerHandler e ctx b in
  let '(r2, b2) := BannerVar.bannerHandler e ctx b1 in
  b1 ≠ b ∧ r2 ≠ r1 ∧ (String.length r1 < String.length r2)%nat.
Proof.
  intros Hv. unfold BannerVar.bannerHandler. rewrite Hv. cbn [negb].
  set (args := [_; _; _; _]).
  destruct (bannerLine_nonempty args) as (c & r & ->).
  assert (∀ x, String.length (x +:+ String c r) = (String.length x + S (String.length r))%nat)
    as Hlen by (intros x; by rewrite length_append_string).
  repeat split.
  - intros H. apply (f_equal String.length) in H. rewrite Hlen in H. lia.
  - intros H. apply (f_equal String.length) in H.
    rewrite !length_append_string in H. simpl in H. lia.
  - rewrite !length_append_string. simpl. lia.
Qed.

Lemma bannerHandler_var_accumulates_witness :
  (BannerVar.bannerHandler banner_env ctx_alice
     (BannerVar.bannerHandler banner_env ctx_alice BannerVar.banner).2).1
  ≠ (BannerVar.bannerHandler banner_env ctx_alice BannerVar.banner).1.
Proof.
  pose proof (bannerHandler_var_accumulates banner_env ctx_alice BannerVar.banner eq_refl)
    as H.
  destruct (BannerVar.bannerHandler banner_env ctx_alice BannerVar.banner) as [r1 b1].
  cbn [fst snd].
  destruct (BannerVar.bannerHandler banner_env ctx_alice b1) as [r2 b2].
  exact (proj1 (proj2 H)).
Defined.

(** The two calls evaluated: the second banner carries the identity line
    twice. *)
Lemma bannerHandler_var_second_call :
  let line := "👤 alice 📦 web01.default 💻 host1" +:+ nl
              +:+ "────────────────────────────────────────────────" +:+ nl in
  let '(r1, b1) := BannerVar.bannerHandler banner_env ctx_alice BannerVar.banner in
  let '(r2, b2) := BannerVar.bannerHandler banner_env ctx_alice b1 in
  r1 = bannerArt +:+ line +:+ nl
  ∧ b1 = bannerArt +:+ line
  ∧ r2 = bannerArt +:+ line +:+ line +:+ nl
  ∧ b2 = bannerArt +:+ line +:+ line.
Proof. vm_compute. done. Qed.

(** The second listing builds the same first banner and has no state to
    change: on a fresh package variable the two listings agree. *)
Lemma bannerHandler_listings_agree e ctx :
  BannerEnv.parseLoginUser e (Context.User ctx) = BannerEnv.LoginUserFromContext e ctx →
  BannerEnv.IsCommand e (BannerEnv.LoginUserFromContext e ctx) = false →
  LoginUser.Remote (BannerEnv.LoginUserFromContext e ctx) = "" →
  (BannerVar.bannerHandler e ctx BannerVar.banner).1 = BannerConst.bannerHandler e ctx.
Proof.
  intros Hp Hc Hr. unfold BannerVar.bannerHandler, BannerConst.bannerHandler.
  rewrite Hp, Hc, Hr.
  destruct (BannerEnv.IsValid e _); [|done]. cbn [negb fst].
  change (String.eqb "" "") with true. cbn [negb].
  destruct (String.eqb (BannerEnv.Hostname e) ""); [done|]. cbn [negb].
  reflexivity.
Qed.

(** C10. For an SSH context whose login descriptor is invalid, [bannerHandler]
    returns the empty string, in both listings; the first listing also leaves
    its package variable as it was. *)
Theorem bannerHandler_invalid_empty e ctx :
  (BannerEnv.IsValid e (BannerEnv.parseLoginUser e (Context.User ctx)) = false →
   ∀ b, BannerVar.bannerHandler e ctx b = ("", b))
  ∧ (BannerEnv.IsValid e (BannerEnv.LoginUserFromContext e ctx) = false →
     BannerConst.bannerHandler e ctx = "").
Proof.
  split.
  - intros H b. unfold BannerVar.bannerHandler. by rewrite H.
  - intros H. unfold BannerConst.bannerHandler. by rewrite H.
Qed.

Lemma bannerHandler_invalid_empty_witness :
  BannerVar.bannerHandler banner_env_invalid ctx_alice BannerVar.banner
    = ("", BannerVar.banner)
  ∧ BannerConst.bannerHandler banner_env_invalid ctx_alice = "".
Proof.
  split.
  - exact (proj1 (bannerHandler_invalid_empty banner_env_invalid ctx_alice) eq_refl
             BannerVar.banner).
  - exact (proj2 (bannerHandler_invalid_empty banner_env_invalid ctx_alice) eq_refl).
Defined.

(** ** Host identity helpers *)

Lemma fieldsLoop_cons f st r s :
  user.fieldsLoop f st (r :: s) =
  if f r then
    match st with
    | Some fld => fld :: user.fieldsLoop f None s
    | None => user.fieldsLoop f None s
    end
  else
    user.fieldsLoop f (Some match st with Some fld => (fld ++ [r])%list | None => [r] end) s.
Proof. cbn [user.fieldsLoop]. by destruct (f r), st. Qed.

Lemma fieldsLoop_TrimRightFunc f st s :
  user.fieldsLoop f st (user.TrimRightFunc f s) = user.fieldsLoop f st s.
Proof.
  revert st. induction s as [|r s IH]; intros st; [done|].
  rewrite (fieldsLoop_cons f st r s), <- !IH. cbn [user.TrimRightFunc].
  destruct (user.TrimRightFunc f s) as [|r' t].
  - destruct (f r) eqn:Hr.
    + by destruct st.
    + rewrite fieldsLoop_cons, Hr. done.
  - by rewrite fieldsLoop_cons.
Qed.

Lemma fieldsLoop_TrimLeftFunc f s :
  user.fieldsLoop f None (user.TrimLeftFunc f s) = user.fieldsLoop f None s.
Proof.
  induction s as [|r s IH]; [done|]. cbn [user.TrimLeftFunc user.fieldsLoop].
  destruct (f r) eqn:Hr; [done|]. cbn [user.fieldsLoop]. by rewrite Hr.
Qed.

(** Trimming does not change the fields. *)
Lemma Fields_TrimSpace s : user.Fields (user.TrimSpace s) = user.Fields s.
Proof.
  unfold user.Fields, user.TrimSpace.
  by rewrite fieldsLoop_TrimRightFunc, fieldsLoop_TrimLeftFunc.
Qed.

Lemma TrimRightFunc_nil f s : user.TrimRightFunc f s = [] ↔ forallb f s = true.
Proof.
  induction s as [|r s IH]; [done|]. cbn [user.TrimRightFunc forallb].
  destruct (user.TrimRightFunc f s) as [|r' t].
  - destruct IH as [IH _]. rewrite (IH eq_refl). destruct (f r); split; done.
  - split; [done|]. intros H. apply andb_true_iff in H as [_ H].
    destruct IH as [_ IH]. by specialize (IH H).
Qed.

Lemma TrimLeftFunc_forallb f s :
  forallb f (user.TrimLeftFunc f s) = forallb f s.
Proof.
  induction s as [|r s IH]; [done|]. cbn [user.TrimLeftFunc].
  destruct (f r) eqn:Hr; cbn [forallb]; rewrite Hr; done.
Qed.

(** The output is empty after trimming exactly when it is all white space. *)
Lemma TrimSpace_nil s : user.TrimSpace s = [] ↔ forallb user.IsSpace s = true.
Proof.
  unfold user.TrimSpace. by rewrite TrimRightFunc_nil, TrimLeftFunc_forallb.
Qed.

(** An output that is not all white space has a field. *)
Lemma Fields_nonempty s : user.TrimSpace s ≠ [] → user.Fields s ≠ [].
Proof.
  intros H. assert (forallb user.IsSpace s ≠ true) as Hs by (by rewrite <- TrimSpace_nil).
  unfold user.Fields. clear H. induction s as [|r s IH]; [done|].
  cbn [user.fieldsLoop forallb] in *. destruct (user.IsSpace r); [by apply IH|].
  clear. generalize [r]. induction s as [|r' s IH]; intros fld; cbn [user.fieldsLoop].
  - done.
  - destruct (user.IsSpace r'); [done|apply IH].
Qed.

(** Every field is non-empty and free of white space. *)
Lemma fieldsLoop_field f st s fld :
  (∀ x, st = Some x → x ≠ [] ∧ forallb (λ r, negb (f r)) x = true) →
  In fld (user.fieldsLoop f st s) →
  fld ≠ [] ∧ forallb (λ r, negb (f r)) fld = true.
Proof.
  revert st. induction s as [|r s IH]; intros st Hst.
  - destruct st as [x|]; cbn [user.fieldsLoop In]; [|done].
    intros [<-|[]]. by apply Hst.
  - rewrite fieldsLoop_cons. destruct (f r) eqn:Hr.
    + destruct st as [x|].
      * intros [<-|Hin]; [by apply Hst|]. by apply (IH None).
      * by apply (IH None).
    + apply IH. intros x [= <-]. destruct st as [y|].
      * destruct (Hst y eq_refl) as [_ Hy]. split; [by destruct y|].
        rewrite forallb_app, Hy. cbn [forallb]. by rewrite Hr.
      * split; [done|]. cbn [forallb]. by rewrite Hr.
Qed.

Lemma Fields_field s fld :
  In fld (user.Fields s) →
  fld ≠ [] ∧ forallb (λ r, negb (user.IsSpace r)) fld = true.
Proof. apply fieldsLoop_field. done. Qed.

Lemma id_helper_result {error : Type} (errNotFound : error)
    (out : list user.rune * option error) :
  id_helper_spec errNotFound out
    (match out.2 with
     | Some err => inl err
     | None =>
         if (0 <? length (user.TrimSpace out.1))%nat
         then inr (user.Fields (user.TrimSpace out.1))
         else inl errNotFound
     end).
Proof.
  destruct out as [data [err|]]; unfold id_helper_spec; cbn [fst snd].
  - split; [by intros e [= ->]|done].
  - split; [done|]. intros _. rewrite Fields_TrimSpace.
    destruct (user.TrimSpace data) as [|r t] eqn:E; cbn [length Nat.ltb Nat.leb].
    + split; [done|]. done.
    + split; [split; done|done].
Qed.

(** C9. [idGroupList] and [idGroupNameList] run [id -G] and [id -Gn] for the
    user's name.  A failure of the command is returned as that error.
    Otherwise they return [errNotFound] exactly when the output is empty
    after trimming white space, and else the white-space-separated fields of
    the output, without error. *)
Theorem idGroupList_spec (error : Type) (errNotFound : error) (idExe : string)
    (command : string → list string → list user.rune * option error) (u : user.User) :
  id_helper_spec errNotFound (command idExe ["-G"; user.Username u])
    (user.idGroupList error errNotFound idExe command u)
  ∧ id_helper_spec errNotFound (command idExe ["-Gn"; user.Username u])
      (user.idGroupNameList error errNotFound idExe command u).
Proof.
  split.
  - unfold user.idGroupList.
    pose proof (id_helper_result errNotFound (command idExe ["-G"; user.Username u])) as H.
    by destruct (command idExe ["-G"; user.Username u]) as [data err].
  - unfold user.idGroupNameList.
    pose proof (id_helper_result errNotFound (command idExe ["-Gn"; user.Username u])) as H.
    by destruct (command idExe ["-Gn"; user.Username u]) as [data err].
Qed.

Lemma idGroupList_spec_witness :
  user.idGroupList string "not found" "/usr/bin/id" id_command (user.mkUser "alice")
    = inr [[49; 48; 48; 48]; [50; 55]]%N
  ∧ user.idGroupNameList string "not found" "/usr/bin/id" id_command (user.mkUser "ghost")
    = inl "not found"
  ∧ user.idGroupList string "not found" "/usr/bin/id" id_command (user.mkUser "mallory")
    = inl "exit status 1".
Proof.
  split; [|split].
  - destruct (idGroupList_spec string "not found" "/usr/bin/id" id_command
                (user.mkUser "alice")) as [[_ H] _].
    destruct (H eq_refl) as [_ H']. rewrite H'; [reflexivity|]. vm_compute. discriminate.
  - destruct (idGroupList_spec string "not found" "/usr/bin/id" id_command
                (user.mkUser "ghost")) as [_ [_ H]].
    destruct (H eq_refl) as [H' _]. apply H'. reflexivity.
  - destruct (idGroupList_spec string "not found" "/usr/bin/id" id_command
                (user.mkUser "mallory")) as [[H _] _].
    apply H. reflexivity.
Defined.

(** * Further properties of the handlers *)

(** ** Early exits of the dispatcher *)

(** Without a login descriptor in the context, or with one that is not
    valid, the dispatcher writes [invalid connection data], exits with
    [ExitCodeInvalidLogin] and does nothing else: no container API client is
    created and the self-service subshell is not entered. *)
Theorem shellHandler_invalid_login w s :
  (∀ lu, Session.ctxLoginUser s = Some lu → World.IsValid w lu = false) →
  run (shellHandler w s) =
    ([EvLog LvlError "invalid connection data for %#v";
      EvWriteString "invalid connection data";
      EvExit ExitCodeInvalidLogin], Returned).
Proof.
  intros H. unfold run, call, shellHandler.
  destruct (Session.ctxLoginUser s) as [lu|]; [|reflexivity].
  rewrite (H lu eq_refl). reflexivity.
Qed.

Lemma shellHandler_invalid_login_witness :
  run (shellHandler world_ok
         (Session.mk None [] "" pty80 true false "10.0.0.1:2222")) =
    ([EvLog LvlError "invalid connection data for %#v";
      EvWriteString "invalid connection data";
      EvExit 1], Returned).
Proof.
  apply (shellHandler_invalid_login world_ok
           (Session.mk None [] "" pty80 true false "10.0.0.1:2222")).
  intros lu H. discriminate H.
Defined.

(** When the container API client cannot be created or cannot connect, the
    session ends with [ExitCodeConnectionError] (255): nothing is written to
    the SSH session, no project, user or exec call is made, and [Disconnect]
    is not called. *)
Theorem shellHandler_connection_failure w s lu :
  Session.ctxLoginUser s = Some lu →
  World.IsValid w lu = true →
  ¬ (LoginUser.User lu = "root" ∧ LoginUser.Instance lu = "%shell") →
  World.NewIncusServer w ≠ None ∨ World.Connect w ≠ None →
  let t := handlerTrace w s in
  exitCodes t = [ExitCodeConnectionError]
  ∧ written t = []
  ∧ Forall (λ e, is_api e = false) t
  ∧ ¬ In EvDisconnect t
  ∧ (World.NewIncusServer w ≠ None → ¬ In EvConnect t).
Proof.
  intros Hctx Hv Hn Hfail t. subst t. unfold handlerTrace, run, call, shellHandler.
  rewrite Hctx, Hv, (not_self_service _ Hn).
  destruct (World.NewIncusServer w) as [e1|] eqn:E1.
  - mred. cbn [app In].
    repeat split; try (repeat constructor; done); intuition congruence.
  - destruct (World.Connect w) as [e2|] eqn:E2; [|by destruct Hfail].
    mred. cbn [app In].
    repeat split; try (repeat constructor; done); intuition congruence.
Qed.

Lemma shellHandler_connection_failure_witness :
  exitCodes (handlerTrace world_no_connect session_echo) = [255]
  ∧ written (handlerTrace world_no_connect session_echo) = [].
Proof.
  assert (¬ (LoginUser.User alice_web01 = "root" ∧ LoginUser.Instance alice_web01 = "%shell"))
    as Hn by (simpl; intros [H _]; discriminate H).
  assert (World.NewIncusServer world_no_connect ≠ None
          ∨ World.Connect world_no_connect ≠ None) as Hf by (right; discriminate).
  pose proof (shellHandler_connection_failure world_no_connect session_echo alice_web01
                eq_refl eq_refl Hn Hf) as H.
  cbv zeta in H. destruct H as (H1 & H2 & _).
  split; [exact H1|exact H2].
Defined.

(** ** Invariants of every run of the dispatcher *)

Ltac every_path :=
  unfold handlerTrace, run, call, shellHandler, incusShell; all_paths.

(** [Disconnect] is called exactly once when [Connect] was called and
    succeeded, and not at all otherwise; when it is called it is the last
    thing the handler does.  [Connect] itself is called at most once. *)
Theorem shellHandler_disconnects w s :
  let t := handlerTrace w s in
  count is_Disconnect t
  = (match World.Connect w with
     | None => count is_Connect t
     | Some _ => 0%nat
     end)
  ∧ (count is_Connect t ≤ 1)%nat
  ∧ (In EvDisconnect t → last t = Some EvDisconnect).
Proof.
  intros t. subst t.
  every_path; (split; [reflexivity|split; [cbn [count is_Connect Nat.add]; lia|]]);
    solve [reflexivity | intros; reflexivity | intuition congruence].
Qed.

Lemma shellHandler_disconnects_witness :
  last (handlerTrace world_ok session_echo) = Some EvDisconnect
  ∧ count is_Disconnect (handlerTrace world_no_connect session_echo) = 0%nat.
Proof.
  split.
  - apply (proj2 (proj2 (shellHandler_disconnects world_ok session_echo))).
    vm_compute. repeat (first [left; reflexivity | right]).
  - exact (proj1 (shellHandler_disconnects world_no_connect session_echo)).
Defined.

(** The dispatcher never passes more than one exit code to the SSH layer.
    It passes none only in the self-service form or when agent forwarding is
    requested and the agent listener cannot be created. *)
Theorem shellHandler_exits_at_most_once w s :
  let t := handlerTrace w s in
  (length (exitCodes t) ≤ 1)%nat
  ∧ (exitCodes t = [] →
     (∃ lu, Session.ctxLoginUser s = Some lu
            ∧ LoginUser.User lu = "root" ∧ LoginUser.Instance lu = "%shell")
     ∨ (Session.AgentRequested s = true ∧ ∃ e, World.NewAgentListener w = inl e)).
Proof.
  intros t. subst t. every_path; no_panic; (split; [cbn; lia|]); cbn; try done.
  all: intros _;
    repeat match goal with
      | H : String.eqb _ _ = true |- _ => apply String.eqb_eq in H
      end;
    solve [ left; eexists; split; [reflexivity|done]
          | right; split; [done|eauto] ].
Qed.

Lemma shellHandler_exits_at_most_once_witness :
  (∃ lu, Session.ctxLoginUser session_agent = Some lu
         ∧ LoginUser.User lu = "root" ∧ LoginUser.Instance lu = "%shell")
  ∨ (Session.AgentRequested session_agent = true
     ∧ ∃ e, World.NewAgentListener world_no_listener = inl e).
Proof.
  apply (proj2 (shellHandler_exits_at_most_once world_no_listener session_agent)).
  vm_compute. reflexivity.
Defined.

(** Every call that needs the connection to the container API ([UseProject],
    [GetInstanceUser], [AddSocket], [RemoveSocket], [Exec]) happens after
    [Connect] and before [Disconnect]. *)
Theorem shellHandler_api_bracketed w s :
  api_bracketed false (handlerTrace w s) = true.
Proof. every_path; reflexivity. Qed.

(** ** The exec request *)

Ltac exec_leaf Hin :=
  cbn [In] in Hin;
  repeat (destruct Hin as [Hin|Hin]; [try discriminate Hin|]);
  try (exfalso; exact Hin);
  try (injection Hin as <-).

(** Where an exec request in a trace comes from, and what follows it. *)
Lemma exec_event_shape w s ie :
  In (EvExec ie) (handlerTrace w s) →
  ∃ lu iu cmd b env,
    Session.ctxLoginUser s = Some lu
    ∧ World.IsValid w lu = true
    ∧ resolved w lu iu
    ∧ buildCommandString (World.config w) s iu (Session.RemoteAddr s) = Some (cmd, b)
    ∧ ie = InstanceExec.mk (LoginUser.Instance lu) cmd env (Session.IsPty s)
             (Pty.Window (Session.PtyReq s))
             (if b then InstanceUser.Uid iu else 0)
             (if b then InstanceUser.Gid iu else 0)
             (InstanceUser.Dir iu)
    ∧ (env = setupEnvironmentVariables s iu (Session.PtyReq s)
       ∨ Session.AgentRequested s = true
         ∧ ∃ path, env = <["SSH_AUTH_SOCK" := path]>
                           (setupEnvironmentVariables s iu (Session.PtyReq s)))
    ∧ execRequests (handlerTrace w s) = [ie]
    ∧ exitCodes (handlerTrace w s) = [(World.Exec w ie).1].
Proof.
  intros Hin. remember (World.Exec w ie).1 as code eqn:Hcode. revert Hin.
  every_path; intros Hin; exec_leaf Hin.
  all: repeat match goal with
         | H : String.eqb _ _ = false |- _ => apply String.eqb_neq in H
         end.
  all: match goal with
       | H : World.Exec _ _ = _ |- _ => rewrite H in Hcode; cbn [fst] in Hcode; subst code
       end.
  all: eexists _, _, _, _, _.
  all: split; [reflexivity|]; split; [eassumption|]; split; [split; eassumption|].
  all: split; [eassumption|]; split; [reflexivity|].
  all: (split; [first [left; reflexivity | right; split; [done|eexists; reflexivity]]|]).
  all: split; reflexivity.
Qed.

Lemma exec_echo_in_trace : In (EvExec exec_echo) (handlerTrace world_ok session_echo).
Proof. vm_compute. repeat (first [left; reflexivity | right]). Qed.

(** The exec engine is invoked at most once, and only for a valid descriptor
    whose in-container user was found: in the descriptor's instance, with the
    user's home directory as working directory and the session's PTY flag and
    window.  The exit code passed to the SSH layer is then the one [Exec]
    returned, whether or not it also returned an error. *)
Theorem shellHandler_exec_request w s ie :
  In (EvExec ie) (handlerTrace w s) →
  ∃ lu iu,
    Session.ctxLoginUser s = Some lu
    ∧ World.IsValid w lu = true
    ∧ resolved w lu iu
    ∧ InstanceExec.Instance ie = LoginUser.Instance lu
    ∧ InstanceExec.Cwd ie = InstanceUser.Dir iu
    ∧ InstanceExec.IsPty ie = Session.IsPty s
    ∧ InstanceExec.Window ie = Pty.Window (Session.PtyReq s)
    ∧ execRequests (handlerTrace w s) = [ie]
    ∧ exitCodes (handlerTrace w s) = [(World.Exec w ie).1].
Proof.
  intros Hin.
  destruct (exec_event_shape w s ie Hin)
    as (lu & iu & cmd & b & env & Hc & Hv & Hr & _ & -> & _ & He & Hx).
  exists lu, iu. do 3 (split; [done|]). by repeat split.
Qed.

Lemma shellHandler_exec_request_witness :
  execRequests (handlerTrace world_ok session_echo) = [exec_echo]
  ∧ exitCodes (handlerTrace world_ok session_echo) = [7].
Proof.
  destruct (shellHandler_exec_request world_ok session_echo exec_echo exec_echo_in_trace)
    as (lu & iu & _ & _ & _ & _ & _ & _ & _ & H1 & H2).
  split; [exact H1|exact H2].
Defined.

(** The exec request carries the in-container user's uid and gid whenever
    the session has a raw command, and also for an interactive session in a
    shell mode other than [su] and [login]; an interactive session in mode
    [su] or [login] is executed with uid and gid 0. *)
Theorem shellHandler_exec_identity w s ie :
  In (EvExec ie) (handlerTrace w s) →
  ∃ lu iu,
    Session.ctxLoginUser s = Some lu
    ∧ resolved w lu iu
    ∧ (Session.RawCommand s ≠ "" →
       InstanceExec.User ie = InstanceUser.Uid iu
       ∧ InstanceExec.Group ie = InstanceUser.Gid iu)
    ∧ (Session.RawCommand s = "" →
       Config.Shell (World.config w) = ShellSu
       ∨ Config.Shell (World.config w) = ShellLogin →
       InstanceExec.User ie = 0 ∧ InstanceExec.Group ie = 0)
    ∧ (Session.RawCommand s = "" →
       Config.Shell (World.config w) ≠ ShellSu →
       Config.Shell (World.config w) ≠ ShellLogin →
       InstanceExec.User ie = InstanceUser.Uid iu
       ∧ InstanceExec.Group ie = InstanceUser.Gid iu).
Proof.
  intros Hin.
  destruct (exec_event_shape w s ie Hin)
    as (lu & iu & cmd & b & env & Hc & _ & Hr & Hb & -> & _ & _ & _).
  exists lu, iu. do 2 (split; [done|]). cbn [InstanceExec.User InstanceExec.Group].
  unfold buildCommandString in Hb. rewrite Split_head in Hb. cbn [mbind option_bind] in Hb.
  destruct (String.eqb_spec (Session.RawCommand s) "") as [Hraw|Hraw].
  - destruct (String.eqb_spec (Config.Shell (World.config w)) ShellSu) as [Hsu|Hsu];
      [|destruct (String.eqb_spec (Config.Shell (World.config w)) ShellLogin) as [Hl|Hl]];
      injection Hb as <- <-; repeat split; intros; try done; tauto.
  - destruct (strings.Contains (Session.RawCommand s) "$");
      injection Hb as <- <-; repeat split; intros; done.
Qed.

Lemma shellHandler_exec_identity_witness :
  InstanceExec.User exec_echo = 1000 ∧ InstanceExec.Group exec_echo = 1000.
Proof.
  destruct (shellHandler_exec_identity world_ok session_echo exec_echo exec_echo_in_trace)
    as (lu & iu & Hc & [_ Hr] & H & _).
  injection Hc as <-. injection Hr as <-. apply H. simpl. discriminate.
Defined.

Lemma setupEnvironmentVariables_reserved s iu p :
  let env := setupEnvironmentVariables s iu p in
  env !! "TERM" = Some (if String.eqb (Pty.Term p) "" then "xterm-256color" else Pty.Term p)
  ∧ env !! "USER" = Some (InstanceUser.User iu)
  ∧ env !! "HOME" = Some (InstanceUser.Dir iu)
  ∧ env !! "SHELL" = Some (InstanceUser.Shell iu).
Proof.
  unfold setupEnvironmentVariables. cbv zeta. repeat split.
  - rewrite !lookup_insert_ne by done.
    destruct (String.eqb (Pty.Term p) ""); simpl; apply lookup_insert_eq.
  - rewrite !lookup_insert_ne by done. apply lookup_insert_eq.
  - rewrite !lookup_insert_ne by done. apply lookup_insert_eq.
  - apply lookup_insert_eq.
Qed.

(** The environment of the exec request always has [USER], [HOME] and [SHELL]
    of the in-container user that was found and [TERM] from the PTY request
    (or [xterm-256color]), agent socket or not; when agent forwarding is not
    requested it is exactly the map [setupEnvironmentVariables] built. *)
Theorem shellHandler_exec_environment w s ie :
  In (EvExec ie) (handlerTrace w s) →
  ∃ lu iu,
    Session.ctxLoginUser s = Some lu
    ∧ resolved w lu iu
    ∧ InstanceExec.Env ie !! "USER" = Some (InstanceUser.User iu)
    ∧ InstanceExec.Env ie !! "HOME" = Some (InstanceUser.Dir iu)
    ∧ InstanceExec.Env ie !! "SHELL" = Some (InstanceUser.Shell iu)
    ∧ InstanceExec.Env ie !! "TERM"
      = Some (if String.eqb (Pty.Term (Session.PtyReq s)) "" then "xterm-256color"
              else Pty.Term (Session.PtyReq s))
    ∧ (Session.AgentRequested s = false →
       InstanceExec.Env ie = setupEnvironmentVariables s iu (Session.PtyReq s)).
Proof.
  intros Hin.
  destruct (exec_event_shape w s ie Hin)
    as (lu & iu & cmd & b & env & Hc & _ & Hr & _ & -> & Henv & _ & _).
  exists lu, iu. do 2 (split; [done|]). cbn [InstanceExec.Env].
  destruct (setupEnvironmentVariables_reserved s iu (Session.PtyReq s)) as (Ht & Hu & Hh & Hs).
  destruct Henv as [->|[Ha [path ->]]].
  - by repeat split.
  - rewrite !lookup_insert_ne by done. repeat split; try done. congruence.
Qed.

Lemma shellHandler_exec_environment_witness :
  InstanceExec.Env exec_echo !! "USER" = Some "alice"
  ∧ InstanceExec.Env exec_echo !! "TERM" = Some "xterm-256color".
Proof.
  destruct (shellHandler_exec_environment world_ok session_echo exec_echo exec_echo_in_trace)
    as (lu & iu & Hc & [_ Hr] & Hu & _ & _ & Ht & _).
  injection Hc as <-. injection Hr as <-. split; [exact Hu|exact Ht].
Defined.

(** ** The command is always there *)

(** [buildCommandString] always returns a command, and never an empty one:
    the index [[0]] into [strings.Split(remoteAddr, ":")] is in range for
    every remote address, the empty one and one without a colon included. *)
Theorem buildCommandString_never_panics config s iu remoteAddr :
  strings.Split remoteAddr ":" ≠ []
  ∧ ∃ cmd b, buildCommandString config s iu remoteAddr = Some (cmd, b) ∧ cmd ≠ "".
Proof.
  split.
  - pose proof (Split_head remoteAddr ":") as H. intros E. by rewrite E in H.
  - assert (∀ x y : string, y ≠ "" → x +:+ y ≠ "") as Happ.
    { intros x y Hy E. apply (f_equal String.length) in E.
      rewrite length_append_string in E. destruct y; [done|]. simpl in E. lia. }
    unfold buildCommandString. rewrite Split_head. cbn [mbind option_bind].
    destruct (String.eqb_spec (Session.RawCommand s) "") as [Hraw|Hraw].
    + destruct (String.eqb (Config.Shell config) ShellSu);
        [|destruct (String.eqb (Config.Shell config) ShellLogin)];
        eexists _, _; (split; [reflexivity|]); try discriminate.
      apply Happ. discriminate.
    + destruct (strings.Contains (Session.RawCommand s) "$");
        eexists _, _; (split; [reflexivity|]); [|done].
      apply Happ. discriminate.
Qed.

(** ** Release of what the dispatcher acquires *)

(** On every path: the sockets removed are exactly the sockets that were
    added with success (at most one); the agent listener is closed once when
    it was created and never otherwise; the window channel is closed once
    for each exec request; and a session that does not ask for agent
    forwarding creates no listener and adds no socket. *)
Theorem shellHandler_releases w s :
  let t := handlerTrace w s in
  removedSockets t = addedSockets w t
  ∧ (length (removedSockets t) ≤ 1)%nat
  ∧ count is_ListenerClose t
    = (match World.NewAgentListener w with
       | inr _ => count is_NewAgentListener t
       | inl _ => 0%nat
       end)
  ∧ count is_CloseWindowChannel t = length (execRequests t)
  ∧ (Session.AgentRequested s = false →
     count is_NewAgentListener t = 0%nat ∧ ∀ d, ¬ In (EvAddSocket d) t).
Proof.
  intros t. subst t. every_path.
  all: unfold removedSockets, addedSockets; cbn [omap list_omap];
    repeat match goal with
      | H : World.AddSocket _ _ = _ |- _ => rewrite H
      end.
  all: split; [reflexivity|]; split; [cbn [length]; lia|]; split; [reflexivity|];
    split; [reflexivity|].
  all: first [ discriminate
             | intros _; split; [reflexivity|intros d; cbn [In]; intuition congruence] ].
Qed.

Lemma shellHandler_releases_witness :
  count is_NewAgentListener (handlerTrace world_ok session_echo) = 0%nat
  ∧ removedSockets (handlerTrace world_ok session_agent)
    = [ProxyDevice.mk "default" "web01" "/tmp/agent.1" 1000 1000 "0660"].
Proof.
  split.
  - exact (proj1 (proj2 (proj2 (proj2 (proj2
             (shellHandler_releases world_ok session_echo)))) eq_refl)).
  - exact (proj1 (shellHandler_releases world_ok session_agent)).
Defined.

(** ** What the environment map does not contain *)

Lemma foldl_envStep_sound l env k x :
  foldl envStep env l !! k = Some x →
  env !! k = Some x ∨ ∃ v, In v l ∧ is_entry v k x.
Proof.
  revert env. induction l as [|v l IH]; intros env H; [by left|].
  cbn [foldl] in H. destruct (IH _ H) as [H1|(v' & Hin & He)].
  - unfold envStep in H1.
    destruct (strings.SplitN v "=" 2) as [|k' [|x' [|? ?]]] eqn:E; try (by left).
    apply SplitN_entry in E.
    destruct (decide (k' = k)) as [->|Hne].
    + rewrite lookup_insert_eq in H1. injection H1 as ->.
      right. exists v. split; [by left|done].
    + rewrite lookup_insert_ne in H1 by done. by left.
  - right. exists v'. split; [by right|done].
Qed.

(** Every variable of the environment map is one of [TERM], [USER], [HOME],
    [SHELL] or comes from an entry of the session's environment request with
    that key and that value; entries without [=] add nothing. *)
Theorem setupEnvironmentVariables_sound s iu p k x :
  setupEnvironmentVariables s iu p !! k = Some x →
  k ∈ reservedNames ∨ ∃ v, In v (Session.Environ s) ∧ is_entry v k x.
Proof.
  intros H. destruct (decide (k ∈ reservedNames)) as [|Hk]; [by left|right].
  rewrite setupEnvironmentVariables_other in H by done.
  destruct (foldl_envStep_sound _ _ _ _ H) as [H0|H0]; [|done].
  by rewrite lookup_empty in H0.
Qed.

Lemma setupEnvironmentVariables_sound_witness :
  "A" ∈ reservedNames ∨ ∃ v, In v (Session.Environ session_dup) ∧ is_entry v "A" "2".
Proof.
  apply (setupEnvironmentVariables_sound session_dup alice pty80 "A" "2").
  vm_compute. reflexivity.
Defined.

(** ** More on the self-service subshell *)

(** On every path of [incusShell]: the PTY file is closed exactly once when
    [pty.Start] succeeded and never otherwise, and closing it is the last
    thing the handler does; [cmd.Wait] is called exactly when the child was
    started. *)
Theorem incusShell_pty_closed w s :
  let t := (run (incusShell w s)).1 in
  (length (startedChildren w t) ≤ 1)%nat
  ∧ count is_PtyClose t = length (startedChildren w t)
  ∧ count is_CmdWait t = length (startedChildren w t)
  ∧ (startedChildren w t ≠ [] → last t = Some EvPtyClose).
Proof.
  intros t. subst t. unfold run, call, incusShell. all_paths.
  all: unfold startedChildren; cbn [omap list_omap];
    repeat match goal with
      | H : World.ptyStart _ _ = _ |- _ => rewrite H
      end.
  all: split; [cbn [length]; lia|]; do 2 (split; [reflexivity|]).
  all: first [ done | intros _; reflexivity ].
Qed.

Lemma incusShell_pty_closed_witness :
  last (run (incusShell world_ok session_shell_pty)).1 = Some EvPtyClose
  ∧ count is_PtyClose (run (incusShell world_no_pty session_shell_pty)).1 = 0%nat.
Proof.
  split.
  - refine (proj2 (proj2 (proj2 (incusShell_pty_closed world_ok session_shell_pty))) _).
    vm_compute. discriminate.
  - exact (proj1 (proj2 (incusShell_pty_closed world_no_pty session_shell_pty))).
Defined.

(** The failures of [incusShell].  When the command line cannot be split it
    writes [Internal error: command parsing failed] and exits with 255; when
    the split gives no argument it panics at once; when the PTY cannot be
    started it writes [Couldn't allocate PTY] and exits with 255, with
    nothing to close; when waiting for the child fails with an error that is
    not an exit status it exits with 255 after the child's output was
    copied, and the PTY is still closed last. *)
Theorem incusShell_failures w s :
  (∀ e, World.shlexSplit w cmdString true = inl e →
     run (incusShell w s) =
       ([EvShlexSplit cmdString true;
         EvLog LvlError "command parsing failed: %w";
         EvWriteString ("Internal error: command parsing failed" +:+ nl);
         EvExit ExitCodeConnectionError], Returned))
  ∧ (World.shlexSplit w cmdString true = inr [] →
     run (incusShell w s) = ([EvShlexSplit cmdString true], Panicked))
  ∧ (∀ a0 rest, World.shlexSplit w cmdString true = inr (a0 :: rest) →
     Session.IsPty s = true →
     let cmd := Cmd.mk (a0 :: rest)
                  ["TERM=" +:+ Pty.Term (Session.PtyReq s);
                   "PATH=/bin:/usr/bin:/snap/bin:/usr/local/bin";
                   "INCUS_SOCKET=" +:+ Config.IncusSocket (World.config w)] in
     (∀ e, World.ptyStart w cmd = Some e →
        run (incusShell w s) =
          ([EvShlexSplit cmdString true;
            EvPtyStart cmd;
            EvLog LvlError "pty start failed: %w";
            EvWriteString ("Couldn't allocate PTY" +:+ nl);
            EvExit ExitCodeConnectionError], Returned))
     ∧ (∀ e, World.ptyStart w cmd = None →
          World.cmdWait w cmd = WaitOtherError e →
          exitCodes (run (incusShell w s)).1 = [ExitCodeConnectionError]
          ∧ last (run (incusShell w s)).1 = Some EvPtyClose)).
Proof.
  split; [|split].
  - intros e H. unfold run, call, incusShell. rewrite H. reflexivity.
  - intros H. unfold run, call, incusShell. rewrite H. reflexivity.
  - intros a0 rest Hsplit Hpty cmd.
    split.
    + intros e Hstart. unfold run, call, incusShell. rewrite Hsplit, Hpty.
      mred. rewrite (Sprintf_suffix "TERM="), (Sprintf_suffix "INCUS_SOCKET=")
        by (unfold has; simpl; intuition discriminate).
      cbn [Cmd.Args Cmd.Env app]. fold cmd. rewrite Hstart. reflexivity.
    + intros e Hstart Hwait. unfold run, call, incusShell. rewrite Hsplit, Hpty.
      mred. rewrite (Sprintf_suffix "TERM="), (Sprintf_suffix "INCUS_SOCKET=")
        by (unfold has; simpl; intuition discriminate).
      cbn [Cmd.Args Cmd.Env app]. fold cmd. rewrite Hstart, Hwait.
      all_paths; split; reflexivity.
Qed.

Lemma incusShell_failures_witness :
  run (incusShell world_no_split session_shell_pty) =
    ([EvShlexSplit cmdString true;
      EvLog LvlError "command parsing failed: %w";
      EvWriteString ("Internal error: command parsing failed" +:+ nl);
      EvExit 255], Returned)
  ∧ run (incusShell world_no_args session_shell_pty)
    = ([EvShlexSplit cmdString true], Panicked)
  ∧ exitCodes (run (incusShell world_no_pty session_shell_pty)).1 = [255].
Proof.
  split; [|split].
  - exact (proj1 (incusShell_failures world_no_split session_shell_pty)
             "unterminated quote" eq_refl).
  - exact (proj1 (proj2 (incusShell_failures world_no_args session_shell_pty)) eq_refl).
  - pose proof (proj1 (proj2 (proj2 (incusShell_failures world_no_pty session_shell_pty))
                         "bash" ["-c"; "loop"] eq_refl eq_refl)
                  "out of ptys" eq_refl) as H.
    exact (f_equal (λ r : list Event * Outcome, exitCodes r.1) H).
Defined.

(** ** What the dispatcher asks the container API *)

Ltac pick_event Hin :=
  cbn [In] in Hin;
  repeat (destruct Hin as [Hin|Hin]; [try discriminate Hin|]);
  try (exfalso; exact Hin).

Ltac eqb_hyps :=
  repeat match goal with
    | H : String.eqb _ _ = false |- _ => apply String.eqb_neq in H
    | H : String.eqb _ _ = true |- _ => apply String.eqb_eq in H
    end.

(** [UseProject] is only ever called with the descriptor's project, and only
    when that is not the default one; [GetInstanceUser] is only ever called
    with the descriptor's project, instance and instance user, only when the
    instance user is not empty and after project selection let the session
    through. *)
Theorem shellHandler_lookup_arguments w s :
  (∀ p, In (EvUseProject p) (handlerTrace w s) →
     ∃ lu, Session.ctxLoginUser s = Some lu
           ∧ p = LoginUser.Project lu
           ∧ World.IsDefaultProject w lu = false)
  ∧ (∀ p i u, In (EvGetInstanceUser p i u) (handlerTrace w s) →
       ∃ lu, Session.ctxLoginUser s = Some lu
             ∧ p = LoginUser.Project lu
             ∧ i = LoginUser.Instance lu
             ∧ u = LoginUser.InstanceUser lu
             ∧ u ≠ ""
             ∧ project_ok w lu).
Proof.
  split.
  - intros p. every_path; intros Hin; pick_event Hin.
    all: injection Hin as <-; eexists; by repeat split.
  - intros p i u. every_path; intros Hin; pick_event Hin.
    all: injection Hin as <- <- <-; eqb_hyps; eexists.
    all: do 5 (split; [done|]).
    all: first [by left | by right].
Qed.

Lemma shellHandler_lookup_arguments_witness :
  ∃ lu, Session.ctxLoginUser session_echo = Some lu
        ∧ "default" = LoginUser.Project lu
        ∧ "web01" = LoginUser.Instance lu
        ∧ "alice" = LoginUser.InstanceUser lu.
Proof.
  destruct (proj2 (shellHandler_lookup_arguments world_ok session_echo)
              "default" "web01" "alice") as (lu & H1 & H2 & H3 & H4 & _).
  - vm_compute. repeat (first [left; reflexivity | right]).
  - exists lu. by repeat split.
Defined.

(** The proxy device for the agent socket is only ever added for a session
    that asked for agent forwarding and whose user was found: it names the
    descriptor's project and instance, its source is the address of the
    agent listener, its owner is the in-container user's uid and gid and its
    mode is [0660]. *)
Theorem shellHandler_proxy_device w s d :
  In (EvAddSocket d) (handlerTrace w s) →
  ∃ lu iu,
    Session.ctxLoginUser s = Some lu
    ∧ resolved w lu iu
    ∧ Session.AgentRequested s = true
    ∧ World.NewAgentListener w = inr (ProxyDevice.Source d)
    ∧ ProxyDevice.Project d = LoginUser.Project lu
    ∧ ProxyDevice.Instance d = LoginUser.Instance lu
    ∧ ProxyDevice.Uid d = InstanceUser.Uid iu
    ∧ ProxyDevice.Gid d = InstanceUser.Gid iu
    ∧ ProxyDevice.Mode d = "0660".
Proof.
  every_path; intros Hin; pick_event Hin.
  all: injection Hin as <-; eqb_hyps; eexists _, _.
  all: split; [reflexivity|]; split; [split; eassumption|]; by repeat split.
Qed.

Lemma shellHandler_proxy_device_witness :
  ∃ lu iu, Session.ctxLoginUser session_agent = Some lu
           ∧ resolved world_ok lu iu
           ∧ InstanceUser.Uid iu = 1000.
Proof.
  destruct (shellHandler_proxy_device world_ok session_agent
              (ProxyDevice.mk "default" "web01" "/tmp/agent.1" 1000 1000 "0660"))
    as (lu & iu & H1 & H2 & _ & _ & _ & _ & H3 & _).
  - vm_compute. repeat (first [left; reflexivity | right]).
  - exists lu, iu. split; [exact H1|]. split; [exact H2|]. symmetry. exact H3.
Defined.

(** ** More on the banner *)

Lemma append_assoc_string a b c : (a +:+ b) +:+ c = a +:+ (b +:+ c).
Proof.
  induction a as [|x a IH]; [done|].
  change (String x ((a +:+ b) +:+ c) = String x (a +:+ (b +:+ c))). by rewrite IH.
Qed.

Lemma bannerLine_format a b c d :
  fmt.Sprintf bannerLineFormat [a; b; c; d]
  = "👤 " +:+ a +:+ " 📦 " +:+ b +:+ "." +:+ c +:+ d +:+ nl +:+ bannerRule +:+ nl.
Proof. reflexivity. Qed.

(** The second listing, for a valid descriptor: the self-service form gets
    the art alone; any other gets the art, the identity line with instance
    user, instance and project, the rule and an empty line.  The remote is
    shown only together with a host name: without one the line ends after
    the project. *)
Theorem bannerHandler_const_shape e ctx :
  let lu := BannerEnv.LoginUserFromContext e ctx in
  BannerEnv.IsValid e lu = true →
  (BannerEnv.IsCommand e lu = true → BannerConst.bannerHandler e ctx = bannerArt)
  ∧ (BannerEnv.IsCommand e lu = false →
     BannerConst.bannerHandler e ctx =
       bannerArt +:+ "👤 " +:+ LoginUser.InstanceUser lu
       +:+ " 📦 " +:+ LoginUser.Instance lu +:+ "." +:+ LoginUser.Project lu
       +:+ hostPart (LoginUser.Remote lu) (BannerEnv.Hostname e)
       +:+ nl +:+ bannerRule +:+ nl +:+ nl).
Proof.
  intros lu Hv. unfold BannerConst.bannerHandler. fold lu. rewrite Hv. cbn [negb].
  split; intros Hc; rewrite Hc; [reflexivity|].
  unfold BannerConst.banner. rewrite bannerLine_format.
  assert ((if negb (String.eqb (BannerEnv.Hostname e) "")
           then fmt.Sprintf " 💻 %s%s"
                  [if negb (String.eqb (LoginUser.Remote lu) "")
                   then LoginUser.Remote lu +:+ " / " else LoginUser.Remote lu;
                   BannerEnv.Hostname e]
           else BannerEnv.Hostname e)
          = hostPart (LoginUser.Remote lu) (BannerEnv.Hostname e)) as ->.
  { unfold hostPart.
    destruct (String.eqb (BannerEnv.Hostname e) "") eqn:Hh; cbn [negb].
    - by apply String.eqb_eq in Hh.
    - destruct (String.eqb (LoginUser.Remote lu) "") eqn:Hr; cbn [negb].
      + apply String.eqb_eq in Hr. rewrite Hr.
        change (fmt.Sprintf " 💻 %s%s" [""; BannerEnv.Hostname e])
          with (" 💻 " +:+ BannerEnv.Hostname e +:+ "").
        by rewrite append_empty_r.
      + change (fmt.Sprintf " 💻 %s%s" [LoginUser.Remote lu +:+ " / "; BannerEnv.Hostname e])
          with (" 💻 " +:+ (LoginUser.Remote lu +:+ " / ") +:+ BannerEnv.Hostname e +:+ "").
        by rewrite append_empty_r. }
  by rewrite !append_assoc_string.
Qed.

Lemma bannerHandler_const_shape_witness :
  BannerConst.bannerHandler banner_env_remote ctx_alice =
    bannerArt +:+ "👤 alice 📦 web01.default 💻 lab / host1" +:+ nl
    +:+ bannerRule +:+ nl +:+ nl.
Proof.
  exact (proj2 (bannerHandler_const_shape banner_env_remote ctx_alice eq_refl) eq_refl).
Defined.

(** The first listing, for a valid login: each call appends the same
    non-empty identity line to the package variable, so after [n] calls the
    variable is its starting value followed by [n] copies of the line, and
    the next call returns that followed by one more copy. *)
Theorem bannerHandler_var_grows e ctx :
  BannerEnv.IsValid e (BannerEnv.parseLoginUser e (Context.User ctx)) = true →
  ∃ line, (0 < String.length line)%nat ∧
    ∀ n b,
      bannerAfter e ctx n b = b +:+ copies n line
      ∧ (BannerVar.bannerHandler e ctx (bannerAfter e ctx n b)).1
        = b +:+ copies (S n) line +:+ nl.
Proof.
  intros Hv.
  set (line := fmt.Sprintf bannerLineFormat
         [LoginUser.InstanceUser (BannerEnv.parseLoginUser e (Context.User ctx));
          LoginUser.Instance (BannerEnv.parseLoginUser e (Context.User ctx));
          LoginUser.Project (BannerEnv.parseLoginUser e (Context.User ctx));
          if negb (String.eqb (BannerEnv.Hostname e) "")
          then fmt.Sprintf " 💻 %s" [BannerEnv.Hostname e]
          else BannerEnv.Hostname e]).
  assert (∀ b, BannerVar.bannerHandler e ctx b = (b +:+ line +:+ nl, b +:+ line)) as Hcall.
  { intros b. unfold BannerVar.bannerHandler. rewrite Hv. cbn [negb].
    fold line. by rewrite append_assoc_string. }
  exists line. split.
  - subst line. destruct (bannerLine_nonempty
                [LoginUser.InstanceUser (BannerEnv.parseLoginUser e (Context.User ctx));
                 LoginUser.Instance (BannerEnv.parseLoginUser e (Context.User ctx));
                 LoginUser.Project (BannerEnv.parseLoginUser e (Context.User ctx));
                 if negb (String.eqb (BannerEnv.Hostname e) "")
                 then fmt.Sprintf " 💻 %s" [BannerEnv.Hostname e]
                 else BannerEnv.Hostname e]) as (c & r & ->).
    simpl. lia.
  - intros n b.
    assert (bannerAfter e ctx n b = b +:+ copies n line) as Hn.
    { induction n as [|n IH]; cbn [bannerAfter copies].
      - by rewrite append_empty_r.
      - rewrite Hcall. cbn [snd]. rewrite IH. apply append_assoc_string. }
    split; [exact Hn|]. rewrite Hcall. cbn [fst]. rewrite Hn. cbn [copies].
    by rewrite !append_assoc_string.
Qed.

Lemma bannerHandler_var_grows_witness :
  ∃ line, (0 < String.length line)%nat
          ∧ bannerAfter banner_env ctx_alice 3 bannerArt = bannerArt +:+ copies 3 line.
Proof.
  destruct (bannerHandler_var_grows banner_env ctx_alice eq_refl) as (line & Hlen & H).
  exists line. split; [exact Hlen|]. exact (proj1 (H 3%nat bannerArt)).
Defined.

(** ** More on the host identity helpers *)

(** When [idGroupList] or [idGroupNameList] succeeds, the list it returns is
    not empty, and none of its elements is empty or contains white space. *)
Theorem idGroupList_fields (error : Type) (errNotFound : error) (idExe : string)
    (command : string → list string → list user.rune * option error) (u : user.User)
    (fields : list (list user.rune)) :
  user.idGroupList error errNotFound idExe command u = inr fields
  ∨ user.idGroupNameList error errNotFound idExe command u = inr fields →
  fields ≠ []
  ∧ ∀ fld, In fld fields →
      fld ≠ [] ∧ forallb (λ r, negb (user.IsSpace r)) fld = true.
Proof.
  assert (∀ out : list user.rune * option error,
    (let '(data, err) := out in
     match err with
     | Some err => inl err
     | None =>
         let data := user.TrimSpace data in
         if (0 <? length data)%nat then inr (user.Fields data)
         else inl errNotFound
     end) = inr fields →
    fields ≠ []
    ∧ ∀ fld, In fld fields →
        fld ≠ [] ∧ forallb (λ r, negb (user.IsSpace r)) fld = true) as Hout.
  { intros [data [err|]]; [done|]. cbv zeta. rewrite Fields_TrimSpace.
    destruct (user.TrimSpace data) as [|r t] eqn:E; [done|].
    cbn [length Nat.ltb Nat.leb]. intros [= <-]. split.
    - apply Fields_nonempty. by rewrite E.
    - intros fld. apply Fields_field. }
  intros [H|H]; [apply (Hout (command idExe ["-G"; user.Username u]))
                |apply (Hout (command idExe ["-Gn"; user.Username u]))]; exact H.
Qed.

Lemma idGroupList_fields_witness :
  [[49; 48; 48; 48]; [50; 55]]%N ≠ ([] : list (list user.rune)).
Proof.
  refine (proj1 (idGroupList_fields string "not found" "/usr/bin/id" id_command
                   (user.mkUser "alice") [[49; 48; 48; 48]; [50; 55]]%N _)).
  left. vm_compute. reflexivity.
Defined.

(** ** The window size handed to the PTY *)

(** [setWinsize] puts the height in the first field and the width in the
    second, and zero in the two pixel fields.  Both sizes are reduced to 16
    bits: a size from 0 to 65535 is passed as it is, and any other wraps
    around modulo 65536. *)
Theorem setWinsize_fields w h :
  let ws := setWinsize w h in
  0 ≤ Winsize.h ws < 65536
  ∧ 0 ≤ Winsize.w ws < 65536
  ∧ Winsize.x ws = 0 ∧ Winsize.y ws = 0
  ∧ (0 ≤ h < 65536 → Winsize.h ws = h)
  ∧ (0 ≤ w < 65536 → Winsize.w ws = w)
  ∧ (∀ i j, setWinsize (w + 65536 * i) (h + 65536 * j) = ws).
Proof.
  cbv zeta. unfold setWinsize, uint16. cbn [Winsize.h Winsize.w Winsize.x Winsize.y].
  repeat split; try (apply Z.mod_pos_bound; lia).
  - intros H. apply Z.mod_small. lia.
  - intros H. apply Z.mod_small. lia.
  - intros i j. f_equal.
    + rewrite (Z.mul_comm 65536 j). apply Z_mod_plus_full.
    + rewrite (Z.mul_comm 65536 i). apply Z_mod_plus_full.
Qed.

Lemma setWinsize_fields_witness :
  Winsize.h (setWinsize 80 24) = 24 ∧ Winsize.w (setWinsize 80 24) = 80.
Proof.
  destruct (setWinsize_fields 80 24) as (_ & _ & _ & _ & Hh & Hw & _).
  split; [apply Hh|apply Hw]; lia.
Defined.
